(** * hgdb-circt: the packaging script [setup.py]

    A shallow embedding of the staging step [CMakeBuild.build_extension]
    and of the module-level read of [README.md], over a small model of the
    file system and of the [os], [os.path] and [shutil] calls the script
    makes.

    Conventions of the model:
    - a path is the list of its components, absolute and normalised
      ([["home"; "u"; "build"]] for [/home/u/build]); the root is [[]];
    - a file-system entry is a regular file (its bytes) or a directory;
      symbolic links, hard links and permission bits are not modelled;
    - a Python call is a state transformer on the [world] that returns
      either a value or the exception it raised; the world reached when an
      exception is raised is kept, as on a real disk;
    - every library call that touches the disk leaves an [event] in the
      world's log. *)

From Stdlib Require Import Strings.Byte Strings.Ascii NArith.
From stdpp Require Import gmap strings list fin_maps.

Open Scope string_scope.
Open Scope list_scope.

(** ** File system *)

Abbreviation path := (list string).

Inductive node : Type :=
  | File (data : list byte)
  | Dir.

#[global] Instance byte_eq_decision : EqDecision byte := Byte.byte_eq_dec.

#[global] Instance node_eq_decision : EqDecision node.
Proof. solve_decision. Defined.

Inductive event : Type :=
  | Exists (p : path)            (* os.path.exists *)
  | IsFile (p : path)            (* os.path.isfile *)
  | IsDir (p : path)             (* os.path.isdir *)
  | SameFile (p q : path)        (* os.path.samefile *)
  | Mkdir (p : path)             (* os.mkdir *)
  | OpenRead (p : path)          (* open(p, 'rb') or open(p) *)
  | OpenWrite (p : path)         (* open(p, 'wb') *)
  | Chmod (p : path).            (* os.chmod *)

#[global] Instance event_eq_decision : EqDecision event.
Proof. solve_decision. Defined.

Record world : Type := World {
  files : gmap path node;
  log : list event
}.

(** The root directory always exists. *)
Definition stat (w : world) (p : path) : option node :=
  match p with
  | [] => Some Dir
  | _ => files w !! p
  end.

Definition is_file (o : option node) : bool :=
  match o with Some (File _) => true | _ => false end.

Definition is_dir (o : option node) : bool :=
  match o with Some Dir => true | _ => false end.

(** ** Exceptions and the monad of Python calls *)

Inductive exn : Type :=
  | AssertionError
  | FileExistsError
  | FileNotFoundError
  | NotADirectoryError
  | IsADirectoryError
  | SameFileError
  | UnicodeDecodeError.

#[global] Instance exn_eq_decision : EqDecision exn.
Proof. solve_decision. Defined.

Definition M (A : Type) : Type := world → (exn + A) * world.

#[global] Instance M_ret : MRet M := λ A x w, (inr x, w).

#[global] Instance M_bind : MBind M := λ A B f m w,
  match m w with
  | (inl e, w') => (inl e, w')
  | (inr x, w') => f x w'
  end.

Definition raise {A} (e : exn) : M A := λ w, (inl e, w).

Definition emit (e : event) : M unit :=
  λ w, (inr (), World (files w) (log w ++ [e])).

Definition get_stat (p : path) : M (option node) := λ w, (inr (stat w p), w).

Definition put_node (p : path) (n : node) : M unit :=
  λ w, (inr (), World (<[p := n]> (files w)) (log w)).

(** [try: m except FileExistsError: pass] *)
Definition except_FileExistsError_pass (m : M unit) : M unit := λ w,
  match m w with
  | (inl FileExistsError, w') => (inr (), w')
  | r => r
  end.

(** [assert b] *)
Definition assert_ (b : bool) : M unit :=
  if b then mret () else raise AssertionError.

(** [for x in xs: body(x)] *)
Fixpoint for_in {A} (xs : list A) (body : A → M unit) : M unit :=
  match xs with
  | [] => mret ()
  | x :: xs' => body x ;; for_in xs' body
  end.

(** ** [os.path] *)

Definition os_path_dirname (p : path) : path := removelast p.

Definition os_path_basename (p : path) : string := List.last p "".

(** [os.path.join(p, c1, ..., cn)] for components that are plain file
    names ([proper] below): nothing is split at a separator and no absolute
    component restarts the path. *)
Definition os_path_join (p : path) (cs : list string) : path := p ++ cs.

(** Paths are kept absolute and normalised. *)
Definition os_path_abspath (p : path) : path := p.

Definition os_path_exists (p : path) : M bool :=
  emit (Exists p) ;; o ← get_stat p; mret (bool_decide (is_Some o)).

Definition os_path_isfile (p : path) : M bool :=
  emit (IsFile p) ;; o ← get_stat p; mret (is_file o).

Definition os_path_isdir (p : path) : M bool :=
  emit (IsDir p) ;; o ← get_stat p; mret (is_dir o).

(** [shutil._samefile]: [os.path.samefile] compares the two inodes and
    raises [OSError] when either path is missing, which [_samefile] turns
    into [False]. Without links, two paths name the same inode exactly when
    they are equal. *)
Definition shutil_samefile (src dst : path) : M bool :=
  emit (SameFile src dst) ;;
  s ← get_stat src; d ← get_stat dst;
  match s, d with
  | Some _, Some _ => mret (bool_decide (src = dst))
  | _, _ => mret false
  end.

(** ** [os] *)

Definition os_mkdir (p : path) : M unit :=
  emit (Mkdir p) ;;
  parent ← get_stat (os_path_dirname p);
  match parent with
  | None => raise FileNotFoundError
  | Some (File _) => raise NotADirectoryError
  | Some Dir =>
      o ← get_stat p;
      match o with
      | Some _ => raise FileExistsError
      | None => put_node p Dir
      end
  end.

(** [os.makedirs(name)] with [exist_ok=False]. The recursion of the
    library climbs from [name] towards the root, so it runs here on the
    reversed path: [tail :: rhead] is [head/tail]. *)
Fixpoint makedirs_rev (rname : list string) : M unit :=
  match rname with
  | [] => os_mkdir []
  | _ :: rhead =>
      let head := rev rhead in
      b ← os_path_exists head;
      (if negb b then except_FileExistsError_pass (makedirs_rev rhead)
       else mret ()) ;;
      os_mkdir (rev rname)
  end.

Definition os_makedirs (name : path) : M unit := makedirs_rev (rev name).

(** ** Opening files *)

(** [open(p, 'rb').read()] *)
Definition read_bytes (p : path) : M (list byte) :=
  emit (OpenRead p) ;;
  o ← get_stat p;
  match o with
  | None => raise FileNotFoundError
  | Some Dir => raise IsADirectoryError
  | Some (File data) => mret data
  end.

(** [open(p, 'wb').write(data)]: creates or truncates [p]. *)
Definition write_bytes (p : path) (data : list byte) : M unit :=
  emit (OpenWrite p) ;;
  parent ← get_stat (os_path_dirname p);
  match parent with
  | None => raise FileNotFoundError
  | Some (File _) => raise NotADirectoryError
  | Some Dir =>
      o ← get_stat p;
      match o with
      | Some Dir => raise IsADirectoryError
      | _ => put_node p (File data)
      end
  end.

(** ** [shutil] *)

Definition shutil_copyfile (src dst : path) : M unit :=
  same ← shutil_samefile src dst;
  if (same : bool) then raise SameFileError
  else data ← read_bytes src; write_bytes dst data.

(** [shutil.copymode]: [os.chmod(dst, stat(src).st_mode)]; permission bits
    are not part of [node], so only the call is recorded. *)
Definition shutil_copymode (src dst : path) : M unit :=
  s ← get_stat src; d ← get_stat dst;
  match s, d with
  | Some _, Some _ => emit (Chmod dst)
  | _, _ => raise FileNotFoundError
  end.

Definition shutil_copy (src dst : path) : M path :=
  d ← os_path_isdir dst;
  let dst := if (d : bool) then os_path_join dst [os_path_basename src] else dst in
  shutil_copyfile src dst ;;
  shutil_copymode src dst ;;
  mret dst.

(** ** Text files *)

(** A Python [str]: the sequence of its code points. *)
Abbreviation str := (list N).

Inductive encoding : Type := UTF_8 | ASCII | Latin_1.

Definition continuation (x : N) : bool := (0x80 <=? x)%N && (x <=? 0xBF)%N.

Definition low6 (x : N) : N := N.land x 0x3F.

(** The strict UTF-8 decoder: shortest forms only, no surrogates, nothing
    above U+10FFFF; [None] stands for [UnicodeDecodeError]. *)
Fixpoint utf_8_decode (bs : list byte) : option str :=
  match bs with
  | [] => Some []
  | b0 :: r0 =>
      let x0 := Byte.to_N b0 in
      if (x0 <? 0x80)%N then cons x0 <$> utf_8_decode r0
      else if (x0 <? 0xC0)%N then None
      else if (x0 <? 0xE0)%N then
        match r0 with
        | b1 :: r1 =>
            let x1 := Byte.to_N b1 in
            let c := N.lor (N.shiftl (N.land x0 0x1F) 6) (low6 x1) in
            if continuation x1 && (0x80 <=? c)%N
            then cons c <$> utf_8_decode r1 else None
        | _ => None
        end
      else if (x0 <? 0xF0)%N then
        match r0 with
        | b1 :: b2 :: r2 =>
            let x1 := Byte.to_N b1 in
            let x2 := Byte.to_N b2 in
            let c := N.lor (N.shiftl (N.land x0 0x0F) 12)
                       (N.lor (N.shiftl (low6 x1) 6) (low6 x2)) in
            if continuation x1 && continuation x2 && (0x800 <=? c)%N
               && negb ((0xD800 <=? c)%N && (c <=? 0xDFFF)%N)
            then cons c <$> utf_8_decode r2 else None
        | _ => None
        end
      else if (x0 <? 0xF8)%N then
        match r0 with
        | b1 :: b2 :: b3 :: r3 =>
            let x1 := Byte.to_N b1 in
            let x2 := Byte.to_N b2 in
            let x3 := Byte.to_N b3 in
            let c := N.lor (N.shiftl (N.land x0 0x07) 18)
                       (N.lor (N.shiftl (low6 x1) 12)
                          (N.lor (N.shiftl (low6 x2) 6) (low6 x3))) in
            if continuation x1 && continuation x2 && continuation x3
               && (0x10000 <=? c)%N && (c <=? 0x10FFFF)%N
            then cons c <$> utf_8_decode r3 else None
        | _ => None
        end
      else None
  end.

Definition ascii_decode (bs : list byte) : option str :=
  mapM (λ b, let x := Byte.to_N b in
             if (x <? 0x80)%N then Some x else None) bs.

Definition latin_1_decode (bs : list byte) : option str :=
  Some (map Byte.to_N bs).

Definition decode (enc : encoding) (bs : list byte) : option str :=
  match enc with
  | UTF_8 => utf_8_decode bs
  | ASCII => ascii_decode bs
  | Latin_1 => latin_1_decode bs
  end.

(** Universal newlines on input ([newline=None]): ["\r\n"] and a lone
    ["\r"] are both read as ["\n"]. *)
Fixpoint universal_newlines (s : str) : str :=
  match s with
  | [] => []
  | c :: s' =>
      if (c =? 13)%N then
        10%N :: match s' with
                | c' :: s'' =>
                    if (c' =? 10)%N then universal_newlines s''
                    else universal_newlines s'
                | [] => []
                end
      else c :: universal_newlines s'
  end.

(** [open(p).read()]: text mode, default encoding, default newline
    handling. The encoding is the one the platform prefers
    ([locale.getpreferredencoding(False)]); the call names none. *)
Definition open_read_text (preferred : encoding) (p : path) : M str :=
  data ← read_bytes p;
  match decode preferred data with
  | None => raise UnicodeDecodeError
  | Some s => mret (universal_newlines s)
  end.

(** ** setup.py *)

Definition binary_names : list string := ["circt-opt"; "firtool"].

Record CMakeExtension : Type := {
  name : string;
  sourcedir : path
}.

Section Setup.

(** [os.path.dirname(__file__)], resolved. *)
Variable script_dir : path.

(** [build_ext.get_ext_fullpath], a method of the packaging framework:
    the full path of the extension module to build. *)
Variable get_ext_fullpath : string → path.

(** The body of [CMakeBuild.build_extension], with the module-level list
    [binary_names], which the body reads when it runs, as an argument. *)
Definition build_extension_on (binary_names : list string)
    (ext : CMakeExtension) : M unit :=
  let extdir := os_path_abspath (os_path_dirname (get_ext_fullpath (name ext))) in
  b ← os_path_exists extdir;
  (if negb b then os_makedirs extdir else mret ()) ;;
  let bins := ["hgdb-rtl"] in
  let root_dir := script_dir in
  let binaries :=
    map (λ name, os_path_join root_dir ["build"; "bin"; name]) binary_names in
  for_in binaries (λ binary,
    ok ← os_path_isfile binary;
    assert_ ok ;;
    shutil_copy binary extdir ;;
    mret ()).

Definition build_extension (ext : CMakeExtension) : M unit :=
  build_extension_on binary_names ext.

(** [locale.getpreferredencoding(False)] *)
Variable preferred_encoding : encoding.

(** Lines 39-40: [with open(os.path.join(os.path.dirname(__file__),
    "README.md")) as f: long_description = f.read()] *)
Definition long_description : M str :=
  open_read_text preferred_encoding (os_path_join script_dir ["README.md"]).

End Setup.

(** ** The parts of [build_extension] *)

Definition add_log (w : world) (es : list event) : world :=
  World (files w) (log w ++ es).

Section Parts.

Variable script_dir : path.
Variable get_ext_fullpath : string → path.
Variable ext : CMakeExtension.

(** The paths the script works with. *)
Definition extdir : path := os_path_dirname (get_ext_fullpath (name ext)).
Definition bin_dir : path := script_dir ++ ["build"; "bin"].
Definition src (n : string) : path :=
  os_path_join script_dir ["build"; "bin"; n].
Definition dst (n : string) : path := extdir ++ [n].

(** Lines 27-28: create the output directory when it is missing. *)
Definition create_extdir : M unit :=
  b ← os_path_exists extdir;
  if negb b then os_makedirs extdir else mret ().

(** Lines 35-36: the body of the loop. *)
Definition stage_binary (binary : path) : M unit :=
  ok ← os_path_isfile binary;
  assert_ ok ;;
  shutil_copy binary extdir ;;
  mret ().

Definition stage (names : list string) : M unit :=
  for_in (map src names) stage_binary.

(** The body of the loop in closed form, for a world in which the output
    directory is there. *)
Definition stage_binary_spec (n : string) (w : world) : (exn + unit) * world :=
  match stat w (src n) with
  | Some (File data) =>
      if bool_decide (src n = dst n) && bool_decide (is_Some (stat w (dst n)))
      then (inl SameFileError,
            add_log w [IsFile (src n); IsDir extdir; SameFile (src n) (dst n)])
      else if is_dir (stat w (dst n))
      then (inl IsADirectoryError,
            add_log w [IsFile (src n); IsDir extdir; SameFile (src n) (dst n);
                       OpenRead (src n); OpenWrite (dst n)])
      else (inr (),
            World (<[dst n := File data]> (files w))
                  (log w ++ [IsFile (src n); IsDir extdir; SameFile (src n) (dst n);
                             OpenRead (src n); OpenWrite (dst n); Chmod (dst n)]))
  | _ => (inl AssertionError, add_log w [IsFile (src n)])
  end.

(** The four ways one turn of the loop can end. *)
Inductive outcome (n : string) (w : world) : (exn + unit) * world → Prop :=
  | outcome_missing :
      is_file (stat w (src n)) = false →
      outcome n w (inl AssertionError, add_log w [IsFile (src n)])
  | outcome_same data :
      stat w (src n) = Some (File data) →
      src n = dst n →
      outcome n w
        (inl SameFileError,
         add_log w [IsFile (src n); IsDir extdir; SameFile (src n) (dst n)])
  | outcome_isdir data :
      stat w (src n) = Some (File data) →
      stat w (dst n) = Some Dir →
      outcome n w
        (inl IsADirectoryError,
         add_log w [IsFile (src n); IsDir extdir; SameFile (src n) (dst n);
                    OpenRead (src n); OpenWrite (dst n)])
  | outcome_copied data :
      stat w (src n) = Some (File data) →
      src n ≠ dst n →
      is_dir (stat w (dst n)) = false →
      outcome n w
        (inr (),
         World (<[dst n := File data]> (files w))
               (log w ++ [IsFile (src n); IsDir extdir; SameFile (src n) (dst n);
                          OpenRead (src n); OpenWrite (dst n); Chmod (dst n)])).

(** Line 39: the file read for the long description. *)
Definition readme : path := script_dir ++ ["README.md"].

End Parts.

(** ** Vocabulary of the properties *)

(** The only change from [w] to [w']: new directories on the way to [p]. *)
Definition only_dirs_added (p : path) (w w' : world) : Prop :=
  ∀ q, stat w' q = stat w q
       ∨ (stat w q = None ∧ stat w' q = Some Dir ∧ q `prefix_of` p).

Definition is_mk_event (e : event) : bool :=
  match e with Exists _ | Mkdir _ => true | _ => false end.




(** Two checks that decide, on a concrete world, the hypotheses about the
    path to the output directory and about what lies below it. *)
Definition no_file_on_path (w : world) (p : path) : bool :=
  forallb (λ k, negb (is_file (stat w (take k p)))) (seq 0 (S (List.length p))).

Definition nothing_below (w : world) (p : path) : bool :=
  forallb (λ kv : path * node,
             negb (bool_decide (p `prefix_of` kv.1 ∧ kv.1 ≠ p)))
          (map_to_list (files w)).

(** ** Example worlds *)

Definition example_ext : CMakeExtension :=
  {| name := "hgdb-circt"; sourcedir := ["repo"] |}.

(** [build/lib/<module>.so] under the repository. *)
Definition example_fullpath (module : string) : path :=
  ["repo"; "build"; "lib"; String.append module ".so"].

Definition bytes_of (s : string) : list byte := String.list_byte_of_string s.

(** A fresh build tree: both binaries built, no output directory yet. *)
Definition fresh_tree : world :=
  World (list_to_map
           [ (["repo"], Dir);
             (["repo"; "build"], Dir);
             (["repo"; "build"; "bin"], Dir);
             (["repo"; "build"; "bin"; "circt-opt"], File (bytes_of "ELF-circt-opt"));
             (["repo"; "build"; "bin"; "firtool"], File (bytes_of "ELF-firtool")) ])
        [].

(** The same tree when [firtool] was not built. *)
Definition tree_without_firtool : world :=
  World (list_to_map
           [ (["repo"], Dir);
             (["repo"; "build"], Dir);
             (["repo"; "build"; "bin"], Dir);
             (["repo"; "build"; "bin"; "circt-opt"], File (bytes_of "ELF-circt-opt")) ])
        [].

(** A tree whose output directory holds a stale [circt-opt]. *)
Definition stale_tree : world :=
  World (list_to_map
           [ (["repo"], Dir);
             (["repo"; "build"], Dir);
             (["repo"; "build"; "bin"], Dir);
             (["repo"; "build"; "bin"; "circt-opt"], File (bytes_of "ELF-circt-opt"));
             (["repo"; "build"; "bin"; "firtool"], File (bytes_of "ELF-firtool"));
             (["repo"; "build"; "lib"], Dir);
             (["repo"; "build"; "lib"; "circt-opt"], File (bytes_of "old")) ])
        [].

(** A tree with binaries [a] and [b] expected, and only [a] built. *)
Definition tree_with_a : world :=
  World (list_to_map
           [ (["repo"], Dir);
             (["repo"; "build"], Dir);
             (["repo"; "build"; "bin"], Dir);
             (["repo"; "build"; "bin"; "a"], File (bytes_of "ELF-a")) ])
        [].

(** A [README.md] with a Windows line ending. *)
Definition readme_tree : world :=
  World (list_to_map
           [ (["repo"], Dir);
             (["repo"; "README.md"], File ["a"%byte; x0d; x0a; "b"%byte]) ])
        [].

(** A [README.md] in UTF-8 with Unix line endings. *)
Definition readme_utf8_tree : world :=
  World (list_to_map
           [ (["repo"], Dir);
             (["repo"; "README.md"], File [xc3; xa9; x0a]) ])
        [].

(** ** File names *)

Fixpoint has_slash (s : string) : bool :=
  match s with
  | EmptyString => false
  | String c s' => Ascii.eqb c "/" || has_slash s'
  end.

(** A plain file name, one component of a path: not empty, not ["."] or
    [".."], and without a separator. *)
Definition proper (c : string) : Prop :=
  c ≠ "" ∧ c ≠ "." ∧ c ≠ ".." ∧ has_slash c = false.

(** ** Shape of the file system *)

(** Every entry lies in a directory. *)
Definition well_formed (w : world) : Prop :=
  ∀ p c x, stat w (p ++ [c]) = Some x → stat w p = Some Dir.

(** From [w] to [w'] no entry is removed, no directory becomes a file and
    no file becomes a directory. *)
Definition kept (w w' : world) : Prop :=
  ∀ p, (stat w p = Some Dir → stat w' p = Some Dir)
       ∧ (is_file (stat w p) = true → is_file (stat w' p) = true).

(** A call that keeps both, from any world and whatever it returns. *)
Definition careful {A} (m : M A) : Prop :=
  ∀ w, kept w (m w).2 ∧ (well_formed w → well_formed (m w).2).

(** A check that decides [well_formed] on a concrete world. *)
Definition well_formed_check (w : world) : bool :=
  forallb (λ kv : path * node,
             match kv.1 with
             | [] => true
             | _ => bool_decide (stat w (removelast kv.1) = Some Dir)
             end)
          (map_to_list (files w)).

(** ** More example worlds *)


(** [build] itself is a regular file. *)
Definition tree_with_file_build : world :=
  World (list_to_map
           [ (["repo"], Dir);
             (["repo"; "build"], File (bytes_of "not a directory")) ])
        [].

(** An extension whose module is to land in [build/bin]. *)
Definition fullpath_in_bin (module : string) : path :=
  ["repo"; "build"; "bin"; String.append module ".so"].

(** A [README.md] of ASCII bytes. *)
Definition readme_ascii_tree : world :=
  World (list_to_map
           [ (["repo"], Dir);
             (["repo"; "README.md"], File (bytes_of "hgdb")) ])
        [].

(** * Properties *)

(** *** Worlds and paths *)

Lemma stat_add_log w es p : stat (add_log w es) p = stat w p.
Proof. by destruct p. Qed.

Lemma stat_log w l p : stat (World (files w) l) p = stat w p.
Proof. by destruct p. Qed.

Lemma add_log_add_log w es es' :
  add_log (add_log w es) es' = add_log w (es ++ es').
Proof. unfold add_log; simpl. by rewrite app_assoc. Qed.

Lemma stat_insert_eq w p n l :
  p ≠ [] → stat (World (<[p := n]> (files w)) l) p = Some n.
Proof. destruct p; [done|]. intros _. simpl. apply lookup_insert_eq. Qed.

Lemma stat_insert_ne w p q n l :
  p ≠ q → stat (World (<[p := n]> (files w)) l) q = stat w q.
Proof. destruct q; [done|]. intros H. simpl. by apply lookup_insert_ne. Qed.

Lemma dirname_snoc (p : path) (c : string) : os_path_dirname (p ++ [c]) = p.
Proof. apply removelast_last. Qed.

Lemma basename_snoc (p : path) (c : string) : os_path_basename (p ++ [c]) = c.
Proof. apply last_last. Qed.

Lemma forallb_pointwise {A} (f g : A → bool) (l : list A) :
  (∀ x, f x = g x) → forallb f l = forallb g l.
Proof. intros H. induction l as [|x l IH]; [done|]. simpl. by rewrite H, IH. Qed.

Lemma snoc_ne_self (p : path) (c : string) : p ++ [c] ≠ p.
Proof.
  intros H. apply (f_equal (@List.length string)) in H.
  rewrite length_app in H. simpl in H. lia.
Qed.

Ltac unfold_M :=
  unfold mbind, M_bind, mret, M_ret, raise, emit, get_stat, put_node, assert_ in *.

(** *** Equations of the library calls *)

Lemma bind_run {A B} (m : M A) (f : A → M B) w :
  (m ≫= f) w = match m w with
               | (inl e, w') => (inl e, w')
               | (inr x, w') => f x w'
               end.
Proof. reflexivity. Qed.

Lemma ret_bind_run {A B} (x : A) (f : A → M B) w : (mret x ≫= f) w = f x w.
Proof. reflexivity. Qed.

Lemma os_path_exists_run p w :
  os_path_exists p w = (inr (bool_decide (is_Some (stat w p))), add_log w [Exists p]).
Proof. unfold os_path_exists. unfold_M. simpl. by rewrite stat_log. Qed.

Lemma os_path_isfile_run p w :
  os_path_isfile p w = (inr (is_file (stat w p)), add_log w [IsFile p]).
Proof. unfold os_path_isfile. unfold_M. simpl. by rewrite stat_log. Qed.

Lemma os_path_isdir_run p w :
  os_path_isdir p w = (inr (is_dir (stat w p)), add_log w [IsDir p]).
Proof. unfold os_path_isdir. unfold_M. simpl. by rewrite stat_log. Qed.

Lemma shutil_samefile_run s d w :
  shutil_samefile s d w
  = (inr (bool_decide (s = d) && bool_decide (is_Some (stat w d))
          && bool_decide (is_Some (stat w s))),
     add_log w [SameFile s d]).
Proof.
  unfold shutil_samefile. unfold_M. simpl. rewrite !stat_log.
  destruct (stat w s), (stat w d); simpl; rewrite ?andb_false_r, ?andb_true_r;
    try reflexivity.
Qed.

Lemma os_mkdir_run p w :
  os_mkdir p w =
  match stat w (os_path_dirname p) with
  | None => (inl FileNotFoundError, add_log w [Mkdir p])
  | Some (File _) => (inl NotADirectoryError, add_log w [Mkdir p])
  | Some Dir =>
      match stat w p with
      | Some _ => (inl FileExistsError, add_log w [Mkdir p])
      | None => (inr (), World (<[p := Dir]> (files w)) (log w ++ [Mkdir p]))
      end
  end.
Proof.
  unfold os_mkdir. unfold_M. simpl. rewrite !stat_log.
  destruct (stat w (os_path_dirname p)) as [[?|]|]; try reflexivity.
  rewrite stat_log. by destruct (stat w p).
Qed.

Lemma read_bytes_run p w :
  read_bytes p w =
  match stat w p with
  | None => (inl FileNotFoundError, add_log w [OpenRead p])
  | Some Dir => (inl IsADirectoryError, add_log w [OpenRead p])
  | Some (File data) => (inr data, add_log w [OpenRead p])
  end.
Proof.
  unfold read_bytes. unfold_M. simpl. rewrite !stat_log.
  by destruct (stat w p) as [[?|]|].
Qed.

Lemma write_bytes_run p data w :
  write_bytes p data w =
  match stat w (os_path_dirname p) with
  | None => (inl FileNotFoundError, add_log w [OpenWrite p])
  | Some (File _) => (inl NotADirectoryError, add_log w [OpenWrite p])
  | Some Dir =>
      if is_dir (stat w p) then (inl IsADirectoryError, add_log w [OpenWrite p])
      else (inr (), World (<[p := File data]> (files w)) (log w ++ [OpenWrite p]))
  end.
Proof.
  unfold write_bytes. unfold_M. simpl. rewrite !stat_log.
  destruct (stat w (os_path_dirname p)) as [[?|]|]; try reflexivity.
  rewrite stat_log. by destruct (stat w p) as [[?|]|].
Qed.

Lemma shutil_copymode_run s d w :
  is_Some (stat w s) → is_Some (stat w d) →
  shutil_copymode s d w = (inr (), add_log w [Chmod d]).
Proof.
  intros [? Hs] [? Hd]. unfold shutil_copymode. unfold_M. by rewrite Hs, Hd.
Qed.

(** [shutil.copy] of a regular file into an existing directory. *)
Lemma shutil_copy_run s dir data w :
  stat w dir = Some Dir →
  stat w s = Some (File data) →
  let d := dir ++ [os_path_basename s] in
  shutil_copy s dir w =
  if bool_decide (s = d) && bool_decide (is_Some (stat w d))
  then (inl SameFileError, add_log w [IsDir dir; SameFile s d])
  else if is_dir (stat w d)
  then (inl IsADirectoryError,
        add_log w [IsDir dir; SameFile s d; OpenRead s; OpenWrite d])
  else (inr d, World (<[d := File data]> (files w))
                     (log w ++ [IsDir dir; SameFile s d; OpenRead s;
                                OpenWrite d; Chmod d])).
Proof.
  intros Hdir Hs d. unfold shutil_copy, shutil_copyfile.
  rewrite bind_run, os_path_isdir_run, Hdir. simpl.
  unfold os_path_join. fold d.
  rewrite !bind_run, shutil_samefile_run, stat_add_log, stat_add_log, Hs.
  rewrite (bool_decide_true (is_Some (Some (File data)))) by eauto. rewrite andb_true_r.
  rewrite add_log_add_log. simpl.
  destruct (bool_decide (s = d) && bool_decide (is_Some (stat w d))) eqn:Hsame;
    [reflexivity|].
  rewrite bind_run, read_bytes_run, stat_add_log, Hs, add_log_add_log. simpl.
  rewrite write_bytes_run, !stat_add_log. unfold d at 1. rewrite dirname_snoc, Hdir.
  rewrite add_log_add_log. simpl.
  destruct (is_dir (stat w d)) eqn:Hdd; [reflexivity|].
  assert (s ≠ d) as Hne.
  { intros Heq. rewrite (bool_decide_true (s = d)) in Hsame by done.
    rewrite <- Heq, Hs in Hsame. by rewrite bool_decide_true in Hsame by eauto. }
  rewrite bind_run, shutil_copymode_run.
  - unfold add_log; simpl. by rewrite <- !app_assoc.
  - rewrite stat_insert_ne by done. rewrite Hs. eauto.
  - rewrite stat_insert_eq; [eauto|]. unfold d. by destruct dir.
Qed.

(** *** Creating directories *)

Lemma only_dirs_added_refl p w l : only_dirs_added p w (add_log w l).
Proof. intros q. left. apply stat_add_log. Qed.

Lemma only_dirs_added_trans p1 p2 w1 w2 w3 :
  p1 `prefix_of` p2 →
  only_dirs_added p1 w1 w2 → only_dirs_added p2 w2 w3 →
  only_dirs_added p2 w1 w3.
Proof.
  intros Hp H12 H23 q.
  destruct (H23 q) as [E23|(N2 & D3 & P)], (H12 q) as [E12|(N1 & D2 & P')].
  - left. congruence.
  - right. repeat split; [done|congruence|by etrans].
  - right. repeat split; [congruence|done..].
  - congruence.
Qed.

Lemma os_mkdir_frame p w :
  log (os_mkdir p w).2 = log w ++ [Mkdir p]
  ∧ only_dirs_added p w (os_mkdir p w).2
  ∧ ((os_mkdir p w).1 = inr () → stat (os_mkdir p w).2 p = Some Dir).
Proof.
  rewrite os_mkdir_run.
  destruct (stat w (os_path_dirname p)) as [[?|]|];
    try (split; [done|split; [apply only_dirs_added_refl|done]]).
  destruct (stat w p) eqn:Hp;
    try (split; [done|split; [apply only_dirs_added_refl|done]]).
  assert (p ≠ []) by (by intros ->).
  cbn [fst snd]. split; [done|split].
  - intros q. destruct (decide (p = q)) as [<-|Hne].
    + right. by rewrite stat_insert_eq.
    + left. by rewrite stat_insert_ne.
  - intros _. by rewrite stat_insert_eq.
Qed.

Lemma makedirs_rev_frame rname w :
  (∃ l, log (makedirs_rev rname w).2 = log w ++ l ∧ Forall is_mk_event l)
  ∧ only_dirs_added (rev rname) w (makedirs_rev rname w).2
  ∧ ((makedirs_rev rname w).1 = inr () →
     stat (makedirs_rev rname w).2 (rev rname) = Some Dir).
Proof.
  revert w. induction rname as [|t rhead IH]; intros w.
  { destruct (os_mkdir_frame [] w) as (Hl & Hf & Hd). simpl.
    split; [|done]. exists [Mkdir []]. split; [done|]. by repeat constructor. }
  cbn [makedirs_rev]. rewrite bind_run, os_path_exists_run.
  set (w1 := add_log w [Exists (rev rhead)]).
  assert (∃ w2 l, log w2 = log w ++ l ∧ Forall is_mk_event l
            ∧ only_dirs_added (rev rhead) w w2
            ∧ ((if negb (bool_decide (is_Some (stat w (rev rhead))))
                then except_FileExistsError_pass (makedirs_rev rhead)
                else mret ()) w1 = (inr (), w2)
               ∨ ∃ e, (if negb (bool_decide (is_Some (stat w (rev rhead))))
                       then except_FileExistsError_pass (makedirs_rev rhead)
                       else mret ()) w1 = (inl e, w2)))
    as (w2 & l & Hl & Hmk & Hf & Hr).
  { destruct (bool_decide _); simpl.
    - exists w1, [Exists (rev rhead)]. split; [done|].
      split; [by repeat constructor|]. split; [apply only_dirs_added_refl|by left].
    - destruct (IH w1) as ((l & Hl & Hmk) & Hf & _).
      unfold except_FileExistsError_pass.
      destruct (makedirs_rev rhead w1) as [r w2]. simpl in *.
      exists w2, (Exists (rev rhead) :: l). split.
      { rewrite Hl. simpl. by rewrite <- app_assoc. }
      split; [by constructor|]. split.
      { intros q. destruct (Hf q) as [E|E]; [left|right];
          by rewrite ?stat_add_log in E. }
      destruct r as [[]|[]]; eauto. }
  rewrite bind_run.
  destruct Hr as [->|[e ->]].
  - destruct (os_mkdir_frame (rev (t :: rhead)) w2) as (Hl' & Hf' & Hd').
    split; [|split; [|done]].
    + exists (l ++ [Mkdir (rev (t :: rhead))]).
      rewrite Hl', Hl, <- app_assoc. split; [done|].
      apply Forall_app. split; [done|by repeat constructor].
    + eapply only_dirs_added_trans; [|done..]. simpl. by apply prefix_app_r.
  - simpl. split; [eauto|]. split; [|done].
    intros q. destruct (Hf q) as [?|(?&?&?)]; [by left|right].
    repeat split; [done..|]. by apply prefix_app_r.
Qed.

Lemma makedirs_rev_ok rname w :
  stat w (rev rname) = None →
  (∀ q, q `prefix_of` rev rname → is_file (stat w q) = false) →
  (makedirs_rev rname w).1 = inr ().
Proof.
  revert w. induction rname as [|t rhead IH]; intros w Hnone Hpre; [done|].
  cbn [makedirs_rev]. rewrite bind_run, os_path_exists_run.
  set (w1 := add_log w [Exists (rev rhead)]).
  assert (∀ q, stat w1 q = stat w q) as Hw1 by (intros; apply stat_add_log).
  assert (is_file (stat w (rev rhead)) = false) as Hhead.
  { apply Hpre. simpl. by apply prefix_app_r. }
  assert (∃ w2, (if negb (bool_decide (is_Some (stat w (rev rhead))))
                 then except_FileExistsError_pass (makedirs_rev rhead)
                 else mret ()) w1 = (inr (), w2)
                ∧ stat w2 (rev rhead) = Some Dir
                ∧ stat w2 (rev (t :: rhead)) = None) as (w2 & Hrun & Hd & Hn).
  { destruct (stat w (rev rhead)) as [[?|]|] eqn:Hs; [done|..]; simpl.
    - exists w1. by rewrite !Hw1.
    - destruct (makedirs_rev_frame rhead w1) as (_ & Hf & Hd).
      specialize (IH w1). unfold except_FileExistsError_pass.
      destruct (makedirs_rev rhead w1) as [r w2]. simpl in *.
      assert (r = inr ()) as ->.
      { apply IH; [by rewrite Hw1|]. intros q Hq. rewrite Hw1. apply Hpre.
        by apply prefix_app_r. }
      exists w2. split; [done|]. split; [by apply Hd|].
      destruct (Hf (rev rhead ++ [t])) as [E|(_ & _ & P)].
      + by rewrite E, Hw1.
      + apply prefix_length in P. rewrite length_app in P. simpl in P. lia. }
  rewrite bind_run, Hrun, os_mkdir_run. simpl rev. rewrite dirname_snoc, Hd.
  simpl in Hn. by rewrite Hn.
Qed.

(** *** Reading the log *)


(** *** The names of the binaries *)

Lemma binary_names_inv n :
  n ∈ binary_names → n = "circt-opt" ∨ n = "firtool".
Proof.
  unfold binary_names. rewrite !elem_of_cons, elem_of_nil. tauto.
Qed.

Lemma binary_names_proper : Forall proper binary_names.
Proof. by repeat constructor. Qed.



(** ** The staging loop *)

Section Staging.

Variable script_dir : path.
Variable get_ext_fullpath : string → path.
Variable ext : CMakeExtension.

Local Abbreviation extdir := (extdir get_ext_fullpath ext).
Local Abbreviation bin_dir := (bin_dir script_dir).
Local Abbreviation src := (src script_dir).
Local Abbreviation dst := (dst get_ext_fullpath ext).
Local Abbreviation create_extdir := (create_extdir get_ext_fullpath ext).
Local Abbreviation stage_binary := (stage_binary get_ext_fullpath ext).
Local Abbreviation stage := (stage script_dir get_ext_fullpath ext).
Local Abbreviation stage_binary_spec :=
  (stage_binary_spec script_dir get_ext_fullpath ext).
Local Abbreviation outcome := (outcome script_dir get_ext_fullpath ext).

Lemma build_extension_on_eq names :
  build_extension_on script_dir get_ext_fullpath names ext
  = (create_extdir ;; stage names).
Proof. reflexivity. Qed.

Lemma src_snoc n : src n = bin_dir ++ [n].
Proof. unfold src, bin_dir, os_path_join. by rewrite <- app_assoc. Qed.

Lemma src_eq_dst n m : src n = dst m → n = m ∧ bin_dir = extdir.
Proof.
  rewrite src_snoc. unfold dst. intros H.
  apply app_inj_tail in H. by destruct H.
Qed.

Lemma dst_ne_extdir n : dst n ≠ extdir.
Proof. apply snoc_ne_self. Qed.

Lemma stage_binary_eq n w :
  stat w extdir = Some Dir →
  stage_binary (src n) w = stage_binary_spec n w.
Proof.
  intros Hd. unfold stage_binary, stage_binary_spec.
  rewrite bind_run, os_path_isfile_run.
  destruct (stat w (src n)) as [[data|]|] eqn:Hs; simpl; try reflexivity.
  rewrite ret_bind_run, bind_run.
  rewrite (shutil_copy_run _ _ data); [|by rewrite stat_add_log..].
  assert (extdir ++ [os_path_basename (src n)] = dst n) as ->.
  { by rewrite src_snoc, basename_snoc. }
  rewrite !stat_add_log.
  destruct (_ && _); [by rewrite add_log_add_log|].
  destruct (is_dir _); [by rewrite add_log_add_log|].
  simpl. by rewrite <- !app_assoc.
Qed.

Lemma stage_binary_outcome n w :
  stat w extdir = Some Dir → outcome n w (stage_binary (src n) w).
Proof.
  intros Hd. rewrite stage_binary_eq by done. unfold stage_binary_spec.
  destruct (stat w (src n)) as [[data|]|] eqn:Hs;
    try (apply outcome_missing; by rewrite Hs).
  destruct (bool_decide (src n = dst n)) eqn:Heq.
  - apply bool_decide_eq_true in Heq.
    rewrite bool_decide_true by (rewrite <- Heq, Hs; eauto). simpl.
    by eapply outcome_same.
  - apply bool_decide_eq_false in Heq. simpl.
    destruct (is_dir (stat w (dst n))) eqn:Hdd.
    + destruct (stat w (dst n)) as [[?|]|] eqn:Hx; try done.
      by eapply outcome_isdir.
    + by eapply outcome_copied.
Qed.


Lemma stage_cons n names w :
  stage (n :: names) w =
  match stage_binary (src n) w with
  | (inl e, w') => (inl e, w')
  | (inr _, w') => stage names w'
  end.
Proof. reflexivity. Qed.

Lemma stage_app pre post w :
  stage (pre ++ post) w =
  match stage pre w with
  | (inl e, w') => (inl e, w')
  | (inr _, w') => stage post w'
  end.
Proof.
  revert w. induction pre as [|n pre IH]; intros w; [done|].
  simpl app. rewrite !stage_cons.
  destruct (stage_binary (src n) w) as [[e|[]] w']; [done|]. apply IH.
Qed.

(** Invert one turn of the loop in a goal about [stage (n :: names) w]. *)
Ltac stage_step n w Hd :=
  rewrite ?stage_cons;
  let O := fresh "O" in
  pose proof (stage_binary_outcome n w Hd) as O;
  destruct (stage_binary (src n) w) as [? ?];
  inversion O; subst; clear O.

Lemma stat_copied w n data l q :
  stat (World (<[dst n := File data]> (files w)) l) q
  = if decide (dst n = q) then Some (File data) else stat w q.
Proof.
  case_decide as H.
  - subst q. apply stat_insert_eq. unfold dst. by destruct extdir.
  - by apply stat_insert_ne.
Qed.

(** The loop keeps the output directory and touches only [dst n]. *)
Lemma stage_frame names w :
  stat w extdir = Some Dir →
  stat (stage names w).2 extdir = Some Dir
  ∧ ∀ q, stat (stage names w).2 q = stat w q
         ∨ ∃ n, n ∈ names ∧ q = dst n ∧ src n ≠ dst n.
Proof.
  revert w. induction names as [|n names IH]; intros w Hd.
  { split; [done|]. by left. }
  stage_step n w Hd; cbn [fst snd];
    try (rewrite stat_add_log; split; [done|];
         intros q; left; apply stat_add_log).
  match goal with |- context [stage names ?w'] =>
    destruct (IH w') as [IHd IHf] end.
  { rewrite stat_copied. case_decide as E; [|done].
    by apply dst_ne_extdir in E. }
  split; [done|]. intros q. destruct (IHf q) as [->|(m & ? & ? & ?)].
  - rewrite stat_copied. case_decide as E; [|by left].
    right. exists n. split; [by left|done].
  - right. exists m. split; [by right|done].
Qed.

Lemma stage_keeps_sources names w m data :
  stat w extdir = Some Dir →
  stat w (src m) = Some (File data) →
  stat (stage names w).2 (src m) = Some (File data).
Proof.
  intros Hd Hs. destruct (stage_frame names w Hd) as [_ Hf].
  destruct (Hf (src m)) as [->|(n & _ & E & Hne)]; [done|].
  apply src_eq_dst in E as [-> E]. destruct Hne. rewrite src_snoc, E. done.
Qed.

(** A run of the loop that completes has copied every name. *)
Lemma stage_ok names w :
  stat w extdir = Some Dir →
  (stage names w).1 = inr () →
  ∀ n, n ∈ names →
    src n ≠ dst n
    ∧ ∃ data, stat w (src n) = Some (File data)
              ∧ stat (stage names w).2 (dst n) = Some (File data).
Proof.
  revert w. induction names as [|n names IH]; intros w Hd Hok m Hm.
  { by apply elem_of_nil in Hm. }
  revert Hok. stage_step n w Hd; cbn [fst snd]; try done. intros Hok.
  match goal with |- context [stage names ?x] => set (w' := x) in * end.
  assert (stat w' extdir = Some Dir) as Hd'.
  { unfold w'. rewrite stat_copied. case_decide as E; [|done].
    by apply dst_ne_extdir in E. }
  assert (∀ k, stat w' (src k) = stat w (src k)) as Hsrc.
  { intros k. unfold w'. rewrite stat_copied. case_decide as E; [|done].
    symmetry in E. apply src_eq_dst in E as [-> E]. congruence. }
  destruct (decide (m ∈ names)) as [Hin|Hnin].
  - destruct (IH w' Hd' Hok m Hin) as (? & d & ? & ?).
    split; [done|]. exists d. by rewrite <- Hsrc.
  - apply elem_of_cons in Hm as [->|]; [|done].
    split; [done|]. exists data. split; [done|].
    destruct (stage_frame names w' Hd') as [_ Hf].
    destruct (Hf (dst n)) as [->|(k & Hk & E & _)].
    + unfold w'. rewrite stat_copied. by case_decide.
    + apply app_inj_tail in E as [_ ->]. done.
Qed.

(** Where no library call can fail, the loop ends in [AssertionError]
    or completes, according to the presence of the sources. *)
Lemma stage_result names w :
  stat w extdir = Some Dir →
  bin_dir ≠ extdir →
  (∀ n, n ∈ names → is_dir (stat w (dst n)) = false) →
  (stage names w).1 =
  if forallb (λ n, is_file (stat w (src n))) names
  then inr () else inl AssertionError.
Proof.
  revert w. induction names as [|n names IH]; intros w Hd Hne Hnd; [done|].
  assert (src n ≠ dst n) as Hsd by (intros E; by apply src_eq_dst in E as [_ ?]).
  stage_step n w Hd; cbn [fst snd forallb].
  - match goal with H : is_file _ = false |- _ => by rewrite H end.
  - done.
  - match goal with H : stat w (dst n) = Some Dir |- _ =>
      specialize (Hnd n (list_elem_of_here _ _)); by rewrite H in Hnd end.
  - match goal with H : stat w (src n) = Some _ |- _ => rewrite H end.
    cbn [is_file andb].
    match goal with |- context [stage names ?x] => set (w' := x) in * end.
    assert (∀ q, stat w' q = if decide (dst n = q) then Some (File data)
                             else stat w q) as Hw'
      by (intros; apply stat_copied).
    rewrite IH; [|rewrite Hw'; case_decide as E; [by apply dst_ne_extdir in E|done]
                 |done|].
    + rewrite (forallb_pointwise _ (λ n, is_file (stat w (src n)))); [done|].
      intros k. rewrite Hw'.
      case_decide as E; [|done]. symmetry in E.
      by apply src_eq_dst in E as [_ ?].
    + intros k Hk. rewrite Hw'. case_decide; [done|].
      apply Hnd. by right.
Qed.

(** An [AssertionError] comes from a source that is not a regular file,
    and the failed check is the last thing the run did. *)
Lemma stage_assertion names w :
  stat w extdir = Some Dir →
  (stage names w).1 = inl AssertionError →
  ∃ n, n ∈ names ∧ is_file (stat w (src n)) = false
       ∧ last (log (stage names w).2) = Some (IsFile (src n)).
Proof.
  revert w. induction names as [|n names IH]; intros w Hd; [done|].
  stage_step n w Hd; cbn [fst snd]; try done.
  - intros _. exists n. split; [by left|]. split; [done|].
    simpl. by rewrite last_snoc.
  - match goal with |- context [stage names ?x] => set (w' := x) in * end.
    assert (∀ q, stat w' q = if decide (dst n = q) then Some (File data)
                             else stat w q) as Hw'
      by (intros; apply stat_copied).
    intros Hr. destruct (IH w') as (k & Hk & Hf & Hl); [|done|].
    { rewrite Hw'. case_decide as E; [by apply dst_ne_extdir in E|done]. }
    exists k. split; [by right|]. split; [|done].
    rewrite Hw' in Hf. by case_decide.
Qed.



(** *** Creating the output directory *)

Lemma create_extdir_frame w :
  (∃ l, log (create_extdir w).2 = log w ++ l ∧ Forall is_mk_event l)
  ∧ only_dirs_added extdir w (create_extdir w).2
  ∧ (is_file (stat w extdir) = false → (create_extdir w).1 = inr () →
     stat (create_extdir w).2 extdir = Some Dir).
Proof.
  unfold create_extdir. rewrite bind_run, os_path_exists_run.
  destruct (stat w extdir) as [[?|]|] eqn:Hs; simpl.
  - split; [exists [Exists extdir]; split; [done|by repeat constructor]|].
    split; [apply only_dirs_added_refl|done].
  - split; [exists [Exists extdir]; split; [done|by repeat constructor]|].
    split; [apply only_dirs_added_refl|]. intros _ _. by rewrite stat_add_log.
  - unfold os_makedirs.
    destruct (makedirs_rev_frame (rev extdir) (add_log w [Exists extdir]))
      as ((l & Hl & Hmk) & Hf & Hd).
    rewrite rev_involutive in *. split; [|split].
    + exists (Exists extdir :: l). rewrite Hl. simpl. rewrite <- app_assoc.
      split; [done|by constructor].
    + intros q. destruct (Hf q) as [E|E]; [left|right];
        by rewrite ?stat_add_log in E.
    + intros _. apply Hd.
Qed.

Lemma create_extdir_present w :
  is_Some (stat w extdir) →
  create_extdir w = (inr (), add_log w [Exists extdir]).
Proof.
  intros H. unfold create_extdir. rewrite bind_run, os_path_exists_run.
  by rewrite bool_decide_true.
Qed.

Lemma create_extdir_ok w :
  (∀ q, q `prefix_of` extdir → is_file (stat w q) = false) →
  (create_extdir w).1 = inr ()
  ∧ stat (create_extdir w).2 extdir = Some Dir.
Proof.
  intros Hpre.
  assert ((create_extdir w).1 = inr ()) as Hok.
  { unfold create_extdir. rewrite bind_run, os_path_exists_run.
    destruct (stat w extdir) as [?|] eqn:Hs; simpl; [done|].
    unfold os_makedirs. apply makedirs_rev_ok; rewrite rev_involutive.
    - by rewrite stat_add_log.
    - intros q Hq. rewrite stat_add_log. by apply Hpre. }
  split; [done|]. by apply create_extdir_frame; [apply Hpre|].
Qed.

(** Creating directories neither makes nor unmakes a regular file. *)
Lemma only_dirs_added_file p w w' q :
  only_dirs_added p w w' →
  ∀ data, stat w' q = Some (File data) ↔ stat w q = Some (File data).
Proof. intros H data. destruct (H q) as [->|(E1 & E2 & _)]; [done|]. rewrite E1, E2. done. Qed.

Lemma only_dirs_added_is_file p w w' q :
  only_dirs_added p w w' → is_file (stat w' q) = is_file (stat w q).
Proof. intros H. destruct (H q) as [->|(-> & -> & _)]; done. Qed.

Lemma only_dirs_added_below p w w' q :
  only_dirs_added p w w' → p `prefix_of` q → q ≠ p →
  stat w' q = stat w q.
Proof.
  intros H Hp Hne. destruct (H q) as [->|(_ & _ & P)]; [done|].
  destruct Hne. by apply (anti_symm prefix).
Qed.

Lemma extdir_prefix_dst n : extdir `prefix_of` dst n.
Proof. by apply prefix_app_r. Qed.

(** *** The whole of [build_extension] *)

Abbreviation run names := (build_extension_on script_dir get_ext_fullpath names ext).

(** Either the creation of the output directory fails, or the loop runs
    with the directory in place. *)
Lemma run_cases names w :
  is_file (stat w extdir) = false →
  (∃ e, (create_extdir w).1 = inl e ∧ run names w = create_extdir w)
  ∨ ((create_extdir w).1 = inr ()
     ∧ stat (create_extdir w).2 extdir = Some Dir
     ∧ run names w = stage names (create_extdir w).2).
Proof.
  intros Hnf. rewrite build_extension_on_eq, bind_run.
  destruct (create_extdir_frame w) as (_ & _ & Hd).
  destruct (create_extdir w) as [[e|[]] w1]; simpl in *.
  - left. by exists e.
  - right. auto.
Qed.

Lemma run_frame names w :
  is_file (stat w extdir) = false →
  ∀ p, stat (run names w).2 p = stat w p
       ∨ (∃ n, n ∈ names ∧ p = dst n ∧ src n ≠ dst n)
       ∨ (stat w p = None ∧ stat (run names w).2 p = Some Dir
          ∧ p `prefix_of` extdir).
Proof.
  intros Hnf p. destruct (create_extdir_frame w) as (_ & Hf & _).
  destruct (run_cases names w Hnf) as [(e & _ & ->)|(_ & Hd & ->)].
  - destruct (Hf p) as [?|?]; auto.
  - destruct (stage_frame names _ Hd) as [_ Hs].
    destruct (Hs p) as [->|?]; [|by auto].
    destruct (Hf p) as [?|?]; auto.
Qed.

Lemma run_ok names w :
  is_file (stat w extdir) = false →
  (run names w).1 = inr () →
  stat (run names w).2 extdir = Some Dir
  ∧ ∀ n, n ∈ names →
      src n ≠ dst n
      ∧ ∃ data, stat w (src n) = Some (File data)
                ∧ stat (run names w).2 (src n) = Some (File data)
                ∧ stat (run names w).2 (dst n) = Some (File data).
Proof.
  intros Hnf Hok. destruct (create_extdir_frame w) as (_ & Hf & _).
  destruct (run_cases names w Hnf) as [(e & He & Hr)|(_ & Hd & Hr)];
    rewrite Hr in *; [congruence|].
  split; [by apply stage_frame|]. intros n Hn.
  destruct (stage_ok names _ Hd Hok n Hn) as (Hne & data & Hs & Ht).
  split; [done|]. exists data.
  split; [by apply (only_dirs_added_file _ _ _ (src n) Hf data)|].
  split; [by apply stage_keeps_sources|done].
Qed.

Lemma run_result names w :
  (∀ q, q `prefix_of` extdir → is_file (stat w q) = false) →
  bin_dir ≠ extdir →
  (∀ n, n ∈ names → is_dir (stat w (dst n)) = false) →
  (run names w).1 =
  if forallb (λ n, is_file (stat w (src n))) names
  then inr () else inl AssertionError.
Proof.
  intros Hpre Hne Hnd. destruct (create_extdir_ok w Hpre) as [Hok Hd].
  destruct (create_extdir_frame w) as (_ & Hf & _).
  destruct (run_cases names w) as [(e & He & _)|(_ & _ & ->)];
    [by apply Hpre|congruence|].
  rewrite stage_result; [|done..|].
  - rewrite (forallb_pointwise _ (λ n, is_file (stat w (src n)))); [done|].
    intros n. by eapply only_dirs_added_is_file.
  - intros n Hn. erewrite only_dirs_added_below; [by apply Hnd|done|..].
    + apply extdir_prefix_dst.
    + apply dst_ne_extdir.
Qed.



(** ** The claims about [build_extension] *)

(** C1 (amended). The loop checks and copies name by name, so a missing
    binary stops the run at the first such name. For plain file names: when
    the names before [n] stage without error and [build/bin/n] is not a
    regular file, the run over [pre ++ n :: post] raises [AssertionError] in
    the very world that staging [pre] alone leaves, plus the failed [isfile]
    test. By then every name of [pre] has been copied: the output directory
    holds it with the bytes of its source. No other name has been: the
    entry [<output>/<m>] of a name [m] that is not in [pre] is as it was, so
    the output directory is left without a copy only when no name precedes
    the missing one. *)
Theorem build_extension_fails_at_first_missing pre n post w :
  Forall proper (pre ++ n :: post) →
  is_file (stat w extdir) = false →
  (run pre w).1 = inr () →
  is_file (stat w (src n)) = false →
  run (pre ++ n :: post) w
  = (inl AssertionError, add_log (run pre w).2 [IsFile (src n)])
  ∧ (∀ m, m ∈ pre →
       ∃ data, stat w (src m) = Some (File data)
               ∧ stat (run (pre ++ n :: post) w).2 (dst m) = Some (File data))
  ∧ (∀ m, m ∉ pre →
       stat (run (pre ++ n :: post) w).2 (dst m) = stat w (dst m)).
Proof.
  intros _ Hnf Hpre Hmiss.
  assert (run (pre ++ n :: post) w
          = (inl AssertionError, add_log (run pre w).2 [IsFile (src n)]))
    as Heq.
  { destruct (create_extdir_frame w) as (_ & Hf & _).
    destruct (run_cases pre w Hnf) as [(e & He & Hr)|(Hc & Hd & Hr)];
      rewrite Hr in *; [congruence|].
    destruct (run_cases (pre ++ n :: post) w Hnf)
      as [(e & He & _)|(_ & _ & ->)]; [congruence|].
    rewrite stage_app.
    destruct (stage_frame pre _ Hd) as [Hd2 Hf2].
    destruct (stage pre (create_extdir w).2) as [[e|[]] w2]; simpl in *;
      [done|].
    rewrite stage_cons, stage_binary_eq by done. unfold stage_binary_spec.
    assert (is_file (stat w2 (src n)) = false) as Hm2.
    { destruct (Hf2 (src n)) as [->|(m & Hm & E & Hne)].
      - by erewrite only_dirs_added_is_file.
      - apply src_eq_dst in E as [-> E]. destruct Hne.
        by rewrite src_snoc, E. }
    by destruct (stat w2 (src n)) as [[?|]|]. }
  rewrite Heq. cbn [snd]. split; [done|]. split.
  - intros m Hm. rewrite stat_add_log.
    destruct (run_ok pre w Hnf Hpre) as [_ Hcp].
    destruct (Hcp m Hm) as (_ & data & ? & _ & ?). eauto.
  - intros m Hm. rewrite stat_add_log.
    destruct (run_frame pre w Hnf (dst m))
      as [E|[(k & Hk & E & _)|(_ & _ & P)]]; [done| |].
    + apply app_inj_tail in E as [_ ->]. done.
    + apply prefix_length in P. unfold dst in P. rewrite length_app in P.
      simpl in P. lia.
Qed.

(** C2. Where no platform call fails (no component of the output
    directory's path is a regular file, the output directory is not
    [build/bin] itself, and no directory sits where a binary is to be
    written), [build_extension] raises [AssertionError] exactly when some
    [build/bin/<name>] is not a regular file, and completes exactly when all
    are. The failed [isfile] test is the last thing the run does: nothing
    is retried and no other path is tried. *)
Theorem build_extension_assertion_iff w :
  (∀ q, q `prefix_of` extdir → is_file (stat w q) = false) →
  bin_dir ≠ extdir →
  (∀ n, n ∈ binary_names → is_dir (stat w (dst n)) = false) →
  ((build_extension script_dir get_ext_fullpath ext w).1 = inl AssertionError
   ↔ ∃ n, n ∈ binary_names ∧ is_file (stat w (src n)) = false)
  ∧ ((build_extension script_dir get_ext_fullpath ext w).1 = inr ()
     ↔ ∀ n, n ∈ binary_names → is_file (stat w (src n)) = true)
  ∧ ((build_extension script_dir get_ext_fullpath ext w).1 = inl AssertionError →
     ∃ n, n ∈ binary_names ∧ is_file (stat w (src n)) = false
          ∧ last (log (build_extension script_dir get_ext_fullpath ext w).2)
            = Some (IsFile (src n))).
Proof.
  intros Hpre Hne Hnd. unfold build_extension.
  pose proof (run_result binary_names w Hpre Hne Hnd) as Hr.
  assert (is_file (stat w extdir) = false) as Hnf by (by apply Hpre).
  assert ((run binary_names w).1 = inl AssertionError →
          ∃ n, n ∈ binary_names ∧ is_file (stat w (src n)) = false
               ∧ last (log (run binary_names w).2) = Some (IsFile (src n)))
    as Hlast.
  { destruct (create_extdir_frame w) as (_ & Hf & _).
    destruct (run_cases binary_names w Hnf) as [(e & He & _)|(_ & Hd & ->)].
    { destruct (create_extdir_ok w Hpre). congruence. }
    intros Ha. destruct (stage_assertion _ _ Hd Ha) as (n & Hn & Hm & Hl).
    exists n. split; [done|]. split; [|done].
    by erewrite <- only_dirs_added_is_file. }
  destruct (forallb _ binary_names) eqn:Hall.
  - rewrite forallb_forall in Hall.
    split; [split|split; [split|done]].
    + by rewrite Hr.
    + intros (n & Hn & Hm). apply list_elem_of_In, Hall in Hn. congruence.
    + intros _ n Hn. by apply Hall, list_elem_of_In.
    + done.
  - split; [split|split; [split|done]].
    + intros Ha. destruct (Hlast Ha) as (n & ? & ? & _). eauto.
    + done.
    + by rewrite Hr.
    + intros Hall'. exfalso.
      assert (forallb (λ n, is_file (stat w (src n))) binary_names = true).
      { apply forallb_forall. intros n Hn. by apply Hall', list_elem_of_In. }
      congruence.
Qed.

(** C3. Copy fidelity: when [build_extension] completes (and the output
    directory was a directory or absent), every name of [binary_names] is a
    regular file under [build/bin] and the output directory holds a file of
    that name with the same bytes. *)
Theorem build_extension_copies w :
  is_file (stat w extdir) = false →
  (build_extension script_dir get_ext_fullpath ext w).1 = inr () →
  ∀ n, n ∈ binary_names →
    ∃ data, stat w (src n) = Some (File data)
            ∧ stat (build_extension script_dir get_ext_fullpath ext w).2 (dst n)
              = Some (File data).
Proof.
  intros Hnf Hok n Hn.
  destruct (run_ok binary_names w Hnf Hok) as [_ H].
  destruct (H n Hn) as (_ & data & ? & _ & ?). eauto.
Qed.

(** C4. The output directory is created when it is missing, and left
    alone when it is there: the creation step does not fail, the directory
    exists after it, no existing entry is changed, nothing at all is changed
    when the directory was already there, and the loop of [build_extension]
    runs in the world the step leaves. *)
Theorem build_extension_creates_extdir w :
  (∀ q, q `prefix_of` extdir → is_file (stat w q) = false) →
  ∃ w1, create_extdir w = (inr (), w1)
        ∧ stat w1 extdir = Some Dir
        ∧ (∀ q x, stat w q = Some x → stat w1 q = Some x)
        ∧ (is_Some (stat w extdir) →
           files w1 = files w ∧ log w1 = log w ++ [Exists extdir])
        ∧ build_extension script_dir get_ext_fullpath ext w
          = stage binary_names w1.
Proof.
  intros Hpre. destruct (create_extdir_ok w Hpre) as [Hok Hd].
  destruct (create_extdir_frame w) as (_ & Hf & _).
  pose proof (create_extdir_present w) as Hp.
  unfold build_extension. rewrite build_extension_on_eq, bind_run.
  destruct (create_extdir w) as [[e|[]] w1]; simpl in *; [done|].
  exists w1. split; [done|]. split; [done|]. split; [|split; [|done]].
  - intros q x Hq. destruct (Hf q) as [->|(? & _)]; congruence.
  - intros Hs. specialize (Hp Hs). by inversion Hp.
Qed.


(** C6. With both binaries present and the output directory absent or
    empty, the run completes and the output directory then holds exactly
    [circt-opt] and [firtool], each with the bytes of its source. *)
Theorem build_extension_exact_contents w :
  (∀ n, n ∈ binary_names → is_file (stat w (src n)) = true) →
  (∀ q, q `prefix_of` extdir → is_file (stat w q) = false) →
  (∀ p, extdir `prefix_of` p → p ≠ extdir → stat w p = None) →
  (build_extension script_dir get_ext_fullpath ext w).1 = inr ()
  ∧ (∀ p, extdir `prefix_of` p → p ≠ extdir →
       (is_Some (stat (build_extension script_dir get_ext_fullpath ext w).2 p)
        ↔ p = dst "circt-opt" ∨ p = dst "firtool"))
  ∧ (∀ n, n ∈ binary_names →
       is_file (stat (build_extension script_dir get_ext_fullpath ext w).2 (dst n))
       = true
       ∧ stat (build_extension script_dir get_ext_fullpath ext w).2 (dst n)
         = stat w (src n)).
Proof.
  intros Hsrc Hpre Hempty. unfold build_extension.
  assert (is_file (stat w extdir) = false) as Hnf by (by apply Hpre).
  assert (∀ n, stat w (dst n) = None) as Hdst.
  { intros n. apply Hempty; [apply extdir_prefix_dst|apply dst_ne_extdir]. }
  assert (bin_dir ≠ extdir) as Hne.
  { intros E. specialize (Hsrc "circt-opt" ltac:(by left)).
    pose proof (Hdst "circt-opt") as Hx. unfold dst in Hx.
    by rewrite src_snoc, E, Hx in Hsrc. }
  assert ((run binary_names w).1 = inr ()) as Hok.
  { rewrite run_result; [|done..|by intros n _; rewrite Hdst].
    assert (forallb (λ n, is_file (stat w (src n))) binary_names = true) as ->;
      [|done].
    apply forallb_forall. intros n Hn. by apply Hsrc, list_elem_of_In. }
  destruct (run_ok binary_names w Hnf Hok) as [_ Hcp].
  split; [done|]. split.
  - intros p Hp Hpne. split.
    + intros Hs. destruct (run_frame binary_names w Hnf p)
        as [E|[(n & Hn & -> & _)|(_ & _ & P)]].
      * rewrite E, Hempty in Hs by done. by destruct Hs.
      * apply binary_names_inv in Hn as [->| ->]; auto.
      * destruct Hpne. by apply (anti_symm prefix).
    + intros [-> | ->].
      * destruct (Hcp "circt-opt") as (_ & d & _ & _ & ->); [by left|eauto].
      * destruct (Hcp "firtool") as (_ & d & _ & _ & ->);
          [by right; left|eauto].
  - intros n Hn. destruct (Hcp n Hn) as (_ & d & -> & _ & ->). done.
Qed.

(** C7. A file already in the output directory under the name of a
    binary is overwritten: the run does not fail on it and the file then
    has the bytes of the source. *)
Theorem build_extension_overwrites w :
  stat w extdir = Some Dir →
  bin_dir ≠ extdir →
  (∀ n, n ∈ binary_names →
     is_file (stat w (src n)) = true ∧ is_dir (stat w (dst n)) = false) →
  (build_extension script_dir get_ext_fullpath ext w).1 = inr ()
  ∧ ∀ n old, n ∈ binary_names →
      stat w (dst n) = Some (File old) →
      ∃ data, stat w (src n) = Some (File data)
              ∧ stat (build_extension script_dir get_ext_fullpath ext w).2 (dst n)
                = Some (File data).
Proof.
  intros Hd Hne H. unfold build_extension.
  assert (is_file (stat w extdir) = false) as Hnf by (by rewrite Hd).
  assert ((run binary_names w).1 = inr ()) as Hok.
  { rewrite build_extension_on_eq, bind_run.
    rewrite create_extdir_present by (rewrite Hd; eauto).
    rewrite stage_result; [|by rewrite stat_add_log|done|].
    - assert (forallb (λ n, is_file (stat (add_log w [Exists extdir]) (src n)))
                binary_names = true) as ->; [|done].
      apply forallb_forall. intros n Hn. rewrite stat_add_log.
      by apply H, list_elem_of_In.
    - intros n Hn. rewrite stat_add_log. by apply H. }
  split; [done|]. intros n old Hn _.
  destruct (run_ok binary_names w Hnf Hok) as [_ Hcp].
  destruct (Hcp n Hn) as (_ & d & ? & _ & ?). eauto.
Qed.



End Staging.

(** ** The long description *)

Lemma universal_newlines_id (s : str) :
  13%N ∉ s → universal_newlines s = s.
Proof.
  induction s as [|c s IH]; [done|]. intros [Hc Hs]%not_elem_of_cons.
  simpl. destruct (N.eqb_spec c 13) as [->|_]; [done|]. by rewrite IH.
Qed.

Lemma to_N_carriage_return (b : byte) : Byte.to_N b = 13%N → b = x0d.
Proof.
  intros H. pose proof (Byte.of_to_N b) as E. rewrite H in E.
  by injection E.
Qed.

Lemma utf_8_decode_no_cr_aux (n : nat) :
  ∀ (bs : list byte) (s : str),
    (List.length bs ≤ n)%nat → utf_8_decode bs = Some s → x0d ∉ bs → 13%N ∉ s.
Proof.
  induction n as [|n IH]; intros bs s Hlen Hdec Hcr.
  { destruct bs; [|simpl in Hlen; lia]. injection Hdec as <-. apply not_elem_of_nil. }
  destruct bs as [|b0 r0]; [injection Hdec as <-; apply not_elem_of_nil|].
  apply not_elem_of_cons in Hcr as [Hb0 Hcr]. simpl in Hlen.
  cbn [utf_8_decode] in Hdec.
  destruct (Byte.to_N b0 <? 128)%N.
  { destruct (utf_8_decode r0) as [s'|] eqn:Hr; [|done]. injection Hdec as <-.
    apply not_elem_of_cons. split.
    - intros E. symmetry in E. by apply to_N_carriage_return in E.
    - apply (IH r0); [lia|done..]. }
  destruct (Byte.to_N b0 <? 192)%N; [done|].
  destruct (Byte.to_N b0 <? 224)%N.
  { destruct r0 as [|b1 r1]; [done|].
    apply not_elem_of_cons in Hcr as [_ Hcr]. simpl in Hlen.
    destruct (_ && _) eqn:Hc in Hdec; [|done].
    destruct (utf_8_decode r1) as [s'|] eqn:Hr; [|done]. injection Hdec as <-.
    rewrite !andb_true_iff, N.leb_le in Hc.
    apply not_elem_of_cons. split; [lia|]. apply (IH r1); [lia|done..]. }
  destruct (Byte.to_N b0 <? 240)%N.
  { destruct r0 as [|b1 [|b2 r2]]; [done..|].
    apply not_elem_of_cons in Hcr as [_ [_ Hcr]%not_elem_of_cons]. simpl in Hlen.
    destruct (_ && _) eqn:Hc in Hdec; [|done].
    destruct (utf_8_decode r2) as [s'|] eqn:Hr; [|done]. injection Hdec as <-.
    rewrite !andb_true_iff, N.leb_le in Hc.
    apply not_elem_of_cons. split; [lia|]. apply (IH r2); [lia|done..]. }
  destruct (Byte.to_N b0 <? 248)%N; [|done].
  destruct r0 as [|b1 [|b2 [|b3 r3]]]; [done..|].
  apply not_elem_of_cons in Hcr
    as [_ [_ [_ Hcr]%not_elem_of_cons]%not_elem_of_cons].
  simpl in Hlen.
  destruct (_ && _) eqn:Hc in Hdec; [|done].
  destruct (utf_8_decode r3) as [s'|] eqn:Hr; [|done]. injection Hdec as <-.
  rewrite !andb_true_iff, !N.leb_le in Hc.
  apply not_elem_of_cons. split; [lia|]. apply (IH r3); [lia|done..].
Qed.

Lemma utf_8_decode_no_cr (bs : list byte) (s : str) :
  utf_8_decode bs = Some s → x0d ∉ bs → 13%N ∉ s.
Proof. by apply (utf_8_decode_no_cr_aux (List.length bs)). Qed.

Section Readme.

Variable script_dir : path.
Variable preferred_encoding : encoding.

Local Abbreviation readme := (readme script_dir).

(** C8 (amended). The long description is read from [README.md] next to
    the script in text mode, with the encoding the platform prefers and
    with universal newlines: it is the decoding of the whole file in that
    encoding with every ["\r\n"] and every lone ["\r"] turned into
    ["\n"], and the read changes no file. It is the UTF-8 decoding of the
    file when the preferred encoding is UTF-8 and the file has no carriage
    return. *)
Theorem long_description_reads_readme w data s :
  stat w readme = Some (File data) →
  decode preferred_encoding data = Some s →
  long_description script_dir preferred_encoding w
  = (inr (universal_newlines s), add_log w [OpenRead readme])
  ∧ (preferred_encoding = UTF_8 → x0d ∉ data →
     utf_8_decode data = Some s
     ∧ long_description script_dir preferred_encoding w
       = (inr s, add_log w [OpenRead readme])).
Proof.
  intros Hs Hdec.
  assert (long_description script_dir preferred_encoding w
          = (inr (universal_newlines s), add_log w [OpenRead readme])) as Hrun.
  { unfold long_description, open_read_text, os_path_join. fold readme.
    by rewrite bind_run, read_bytes_run, Hs, Hdec. }
  split; [done|]. intros Henc Hcr. rewrite Henc in Hdec. simpl in Hdec.
  split; [done|]. rewrite Hrun, universal_newlines_id; [done|].
  by eapply utf_8_decode_no_cr.
Qed.

End Readme.

(** * Concrete runs *)

Lemma no_file_on_path_spec w p :
  no_file_on_path w p = true →
  ∀ q, q `prefix_of` p → is_file (stat w q) = false.
Proof.
  unfold no_file_on_path. rewrite forallb_forall. intros H q [k ->].
  specialize (H (List.length q)). rewrite take_app_length in H.
  apply negb_true_iff, H, in_seq. rewrite length_app. lia.
Qed.

Lemma nothing_below_spec w p :
  nothing_below w p = true →
  ∀ q, p `prefix_of` q → q ≠ p → stat w q = None.
Proof.
  unfold nothing_below. rewrite forallb_forall. intros H q Hp Hne.
  destruct (stat w q) as [x|] eqn:Hs; [|done].
  assert (q ≠ []) as Hnil.
  { intros ->. destruct Hne. symmetry. by apply prefix_nil_inv. }
  assert (files w !! q = Some x) as Hl by (by destruct q).
  apply elem_of_map_to_list, list_elem_of_In, H in Hl.
  apply negb_true_iff, bool_decide_eq_false in Hl. by destruct Hl.
Qed.

Abbreviation example_build := (build_extension ["repo"] example_fullpath example_ext).
Abbreviation example_dst := (dst example_fullpath example_ext).
Abbreviation example_src := (src ["repo"]).
Abbreviation example_extdir := (extdir example_fullpath example_ext).

(** C1, as stated, fails: with [circt-opt] built and [firtool] missing,
    the run fails, yet [circt-opt] has been copied into the output
    directory by then. The same happens for the names [a], [b] with only
    [a] built. *)
Lemma build_extension_copies_before_failing :
  (is_file (stat tree_without_firtool (example_src "firtool")) = false
   ∧ (example_build tree_without_firtool).1 = inl AssertionError
   ∧ stat tree_without_firtool (example_dst "circt-opt") = None
   ∧ stat (example_build tree_without_firtool).2 (example_dst "circt-opt")
     = Some (File (bytes_of "ELF-circt-opt")))
  ∧ (is_file (stat tree_with_a (example_src "b")) = false
     ∧ (build_extension_on ["repo"] example_fullpath ["a"; "b"] example_ext
          tree_with_a).1 = inl AssertionError
     ∧ stat tree_with_a (example_dst "a") = None
     ∧ stat (build_extension_on ["repo"] example_fullpath ["a"; "b"] example_ext
               tree_with_a).2 (example_dst "a")
       = Some (File (bytes_of "ELF-a"))).
Proof. vm_compute. repeat split. Qed.

Lemma build_extension_fails_at_first_missing_witness :
  Forall proper (["a"] ++ "b" :: ["c"])
  ∧ is_file (stat tree_with_a example_extdir) = false
  ∧ (build_extension_on ["repo"] example_fullpath ["a"] example_ext tree_with_a).1
    = inr ()
  ∧ is_file (stat tree_with_a (example_src "b")) = false
  ∧ build_extension_on ["repo"] example_fullpath (["a"] ++ "b" :: ["c"])
      example_ext tree_with_a
    = (inl AssertionError,
       add_log (build_extension_on ["repo"] example_fullpath ["a"] example_ext
                  tree_with_a).2
               [IsFile (example_src "b")])
  ∧ (∀ m, m ∈ ["a"] →
       ∃ data, stat tree_with_a (example_src m) = Some (File data)
               ∧ stat (build_extension_on ["repo"] example_fullpath
                         (["a"] ++ "b" :: ["c"]) example_ext tree_with_a).2
                      (example_dst m)
                 = Some (File data))
  ∧ (∀ m, m ∉ ["a"] →
       stat (build_extension_on ["repo"] example_fullpath
               (["a"] ++ "b" :: ["c"]) example_ext tree_with_a).2
            (example_dst m)
       = stat tree_with_a (example_dst m)).
Proof.
  assert (Forall proper (["a"] ++ "b" :: ["c"])) as H0
    by (repeat constructor; done).
  assert (is_file (stat tree_with_a example_extdir) = false) as H1
    by (vm_compute; reflexivity).
  assert ((build_extension_on ["repo"] example_fullpath ["a"] example_ext
             tree_with_a).1 = inr ()) as H2 by (vm_compute; reflexivity).
  assert (is_file (stat tree_with_a (example_src "b")) = false) as H3
    by (vm_compute; reflexivity).
  split; [exact H0|]. split; [exact H1|]. split; [exact H2|].
  split; [exact H3|].
  exact (build_extension_fails_at_first_missing
           ["repo"] example_fullpath example_ext ["a"] "b" ["c"] tree_with_a
           H0 H1 H2 H3).
Defined.

Lemma example_no_file_on_path w :
  no_file_on_path w example_extdir = true →
  ∀ q, q `prefix_of` example_extdir → is_file (stat w q) = false.
Proof. apply no_file_on_path_spec. Qed.

Lemma example_bin_dir_ne_extdir : bin_dir ["repo"] ≠ example_extdir.
Proof. by vm_compute. Qed.

Lemma build_extension_assertion_iff_witness :
  (∀ q, q `prefix_of` example_extdir →
     is_file (stat tree_without_firtool q) = false)
  ∧ bin_dir ["repo"] ≠ example_extdir
  ∧ (∀ n, n ∈ binary_names →
       is_dir (stat tree_without_firtool (example_dst n)) = false)
  ∧ (((example_build tree_without_firtool).1 = inl AssertionError
      ↔ ∃ n, n ∈ binary_names
             ∧ is_file (stat tree_without_firtool (example_src n)) = false)
     ∧ ((example_build tree_without_firtool).1 = inr ()
        ↔ ∀ n, n ∈ binary_names →
               is_file (stat tree_without_firtool (example_src n)) = true)
     ∧ ((example_build tree_without_firtool).1 = inl AssertionError →
        ∃ n, n ∈ binary_names
             ∧ is_file (stat tree_without_firtool (example_src n)) = false
             ∧ last (log (example_build tree_without_firtool).2)
               = Some (IsFile (example_src n)))).
Proof.
  assert (∀ q, q `prefix_of` example_extdir →
            is_file (stat tree_without_firtool q) = false) as H1
    by (apply example_no_file_on_path; vm_compute; reflexivity).
  assert (∀ n, n ∈ binary_names →
            is_dir (stat tree_without_firtool (example_dst n)) = false) as H3
    by (intros n Hn; apply binary_names_inv in Hn; destruct Hn; subst n; vm_compute; reflexivity).
  split; [exact H1|]. split; [exact example_bin_dir_ne_extdir|].
  split; [exact H3|].
  exact (build_extension_assertion_iff ["repo"] example_fullpath example_ext
           tree_without_firtool H1 example_bin_dir_ne_extdir H3).
Defined.

Lemma build_extension_copies_witness :
  is_file (stat fresh_tree example_extdir) = false
  ∧ (example_build fresh_tree).1 = inr ()
  ∧ ∃ data, stat fresh_tree (example_src "firtool") = Some (File data)
            ∧ stat (example_build fresh_tree).2 (example_dst "firtool")
              = Some (File data).
Proof.
  assert (is_file (stat fresh_tree example_extdir) = false) as H1
    by (vm_compute; reflexivity).
  assert ((example_build fresh_tree).1 = inr ()) as H2
    by (vm_compute; reflexivity).
  assert ("firtool" ∈ binary_names) as H3
    by apply list_elem_of_further, list_elem_of_here.
  split; [exact H1|]. split; [exact H2|].
  exact (build_extension_copies ["repo"] example_fullpath example_ext
           fresh_tree H1 H2 "firtool" H3).
Defined.

Lemma build_extension_creates_extdir_witness :
  (∀ q, q `prefix_of` example_extdir → is_file (stat fresh_tree q) = false)
  ∧ stat fresh_tree example_extdir = None
  ∧ ∃ w1, create_extdir example_fullpath example_ext fresh_tree = (inr (), w1)
          ∧ stat w1 example_extdir = Some Dir
          ∧ (∀ q x, stat fresh_tree q = Some x → stat w1 q = Some x)
          ∧ (is_Some (stat fresh_tree example_extdir) →
             files w1 = files fresh_tree
             ∧ log w1 = log fresh_tree ++ [Exists example_extdir])
          ∧ example_build fresh_tree
            = stage ["repo"] example_fullpath example_ext binary_names w1.
Proof.
  assert (∀ q, q `prefix_of` example_extdir →
            is_file (stat fresh_tree q) = false) as H1
    by (apply example_no_file_on_path; vm_compute; reflexivity).
  split; [exact H1|]. split; [vm_compute; reflexivity|].
  exact (build_extension_creates_extdir ["repo"] example_fullpath example_ext
           fresh_tree H1).
Defined.


Lemma build_extension_exact_contents_witness :
  (∀ n, n ∈ binary_names → is_file (stat fresh_tree (example_src n)) = true)
  ∧ (∀ q, q `prefix_of` example_extdir → is_file (stat fresh_tree q) = false)
  ∧ (∀ p, example_extdir `prefix_of` p → p ≠ example_extdir →
       stat fresh_tree p = None)
  ∧ ((example_build fresh_tree).1 = inr ()
     ∧ (∀ p, example_extdir `prefix_of` p → p ≠ example_extdir →
          (is_Some (stat (example_build fresh_tree).2 p)
           ↔ p = example_dst "circt-opt" ∨ p = example_dst "firtool"))
     ∧ (∀ n, n ∈ binary_names →
          is_file (stat (example_build fresh_tree).2 (example_dst n)) = true
          ∧ stat (example_build fresh_tree).2 (example_dst n)
            = stat fresh_tree (example_src n))).
Proof.
  assert (∀ n, n ∈ binary_names →
            is_file (stat fresh_tree (example_src n)) = true) as H1
    by (intros n Hn; apply binary_names_inv in Hn; destruct Hn; subst n; vm_compute; reflexivity).
  assert (∀ q, q `prefix_of` example_extdir →
            is_file (stat fresh_tree q) = false) as H2
    by (apply example_no_file_on_path; vm_compute; reflexivity).
  assert (∀ p, example_extdir `prefix_of` p → p ≠ example_extdir →
            stat fresh_tree p = None) as H3
    by (apply nothing_below_spec; vm_compute; reflexivity).
  split; [exact H1|]. split; [exact H2|]. split; [exact H3|].
  exact (build_extension_exact_contents ["repo"] example_fullpath example_ext
           fresh_tree H1 H2 H3).
Defined.

Lemma build_extension_overwrites_witness :
  stat stale_tree example_extdir = Some Dir
  ∧ bin_dir ["repo"] ≠ example_extdir
  ∧ (∀ n, n ∈ binary_names →
       is_file (stat stale_tree (example_src n)) = true
       ∧ is_dir (stat stale_tree (example_dst n)) = false)
  ∧ stat stale_tree (example_dst "circt-opt") = Some (File (bytes_of "old"))
  ∧ (example_build stale_tree).1 = inr ()
  ∧ ∃ data, stat stale_tree (example_src "circt-opt") = Some (File data)
            ∧ stat (example_build stale_tree).2 (example_dst "circt-opt")
              = Some (File data).
Proof.
  assert (stat stale_tree example_extdir = Some Dir) as H1
    by (vm_compute; reflexivity).
  assert (∀ n, n ∈ binary_names →
            is_file (stat stale_tree (example_src n)) = true
            ∧ is_dir (stat stale_tree (example_dst n)) = false) as H3
    by (intros n Hn; apply binary_names_inv in Hn; destruct Hn; subst n; vm_compute; split; reflexivity).
  assert (stat stale_tree (example_dst "circt-opt")
          = Some (File (bytes_of "old"))) as H4 by (vm_compute; reflexivity).
  assert ("circt-opt" ∈ binary_names) as H5 by apply list_elem_of_here.
  split; [exact H1|]. split; [exact example_bin_dir_ne_extdir|].
  split; [exact H3|]. split; [exact H4|].
  pose proof (build_extension_overwrites ["repo"] example_fullpath example_ext
                stale_tree H1 example_bin_dir_ne_extdir H3) as [Hok Hcp].
  split; [exact Hok|]. exact (Hcp "circt-opt" (bytes_of "old") H5 H4).
Defined.



(** C8, as stated, fails: a carriage return of the file does not reach the
    string, which is then not the UTF-8 decoding of the contents. *)
Lemma long_description_drops_carriage_return :
  stat readme_tree (readme ["repo"]) = Some (File ["a"%byte; x0d; x0a; "b"%byte])
  ∧ utf_8_decode ["a"%byte; x0d; x0a; "b"%byte] = Some [97; 13; 10; 98]%N
  ∧ (long_description ["repo"] UTF_8 readme_tree).1 = inr [97; 10; 98]%N
  ∧ (long_description ["repo"] UTF_8 readme_tree).1 ≠ inr [97; 13; 10; 98]%N.
Proof. vm_compute. repeat split. discriminate. Qed.

Lemma long_description_reads_readme_witness :
  stat readme_utf8_tree (readme ["repo"]) = Some (File [xc3; xa9; x0a])
  ∧ decode UTF_8 [xc3; xa9; x0a] = Some [233; 10]%N
  ∧ long_description ["repo"] UTF_8 readme_utf8_tree
    = (inr [233; 10]%N, add_log readme_utf8_tree [OpenRead (readme ["repo"])]).
Proof.
  assert (stat readme_utf8_tree (readme ["repo"]) = Some (File [xc3; xa9; x0a]))
    as H1 by (vm_compute; reflexivity).
  assert (decode UTF_8 [xc3; xa9; x0a] = Some [233; 10]%N) as H2
    by (vm_compute; reflexivity).
  split; [exact H1|]. split; [exact H2|].
  exact (proj1 (long_description_reads_readme ["repo"] UTF_8 readme_utf8_tree
                  [xc3; xa9; x0a] [233; 10]%N H1 H2)).
Defined.

(** * Further properties *)

(** ** What no run does to the file system *)

Lemma kept_refl w l : kept w (World (files w) l).
Proof. intros p. by rewrite stat_log. Qed.

Lemma kept_trans w1 w2 w3 : kept w1 w2 → kept w2 w3 → kept w1 w3.
Proof.
  intros H12 H23 p. destruct (H12 p) as [Hd Hf], (H23 p) as [Hd' Hf']. auto.
Qed.

Lemma well_formed_log w l : well_formed w → well_formed (World (files w) l).
Proof. intros H p c x. rewrite !stat_log. apply H. Qed.

Lemma careful_ret {A} (x : A) : careful (mret x).
Proof. intros w. split; [|done]. intros p. done. Qed.

Lemma careful_raise {A} e : careful (@raise A e).
Proof. intros w. split; [|done]. intros p. done. Qed.

Lemma careful_emit e : careful (emit e).
Proof.
  intros w. split; [apply kept_refl|apply well_formed_log].
Qed.

Lemma careful_get_stat p : careful (get_stat p).
Proof. intros w. split; [|done]. intros q. done. Qed.

Lemma careful_bind {A B} (m : M A) (f : A → M B) :
  careful m → (∀ x, careful (f x)) → careful (m ≫= f).
Proof.
  intros Hm Hf w. rewrite bind_run. destruct (Hm w) as [Hk Hw].
  destruct (m w) as [[e|x] w1]; [done|]. simpl in *.
  destruct (Hf x w1) as [Hk' Hw']. split; [by eapply kept_trans|auto].
Qed.

Lemma careful_except m : careful m → careful (except_FileExistsError_pass m).
Proof.
  intros Hm w. unfold except_FileExistsError_pass. specialize (Hm w).
  by destruct (m w) as [[[]|[]] w1].
Qed.

Lemma careful_for_in {A} (xs : list A) body :
  (∀ x, careful (body x)) → careful (for_in xs body).
Proof.
  intros Hb. induction xs as [|x xs IH]; [apply careful_ret|].
  simpl. apply careful_bind; [apply Hb|done].
Qed.

(** A new entry under a directory, where there was none or (for a file)
    where there was a file. *)
Lemma put_node_careful w p n l :
  stat w (os_path_dirname p) = Some Dir →
  is_dir (stat w p) = false →
  (n = Dir → stat w p = None) →
  kept w (World (<[p := n]> (files w)) l)
  ∧ (well_formed w → well_formed (World (<[p := n]> (files w)) l)).
Proof.
  intros Hpar Hnd Hn.
  assert (p ≠ []) as Hnil by (by intros ->).
  assert (∀ q, stat (World (<[p := n]> (files w)) l) q
               = if decide (p = q) then Some n else stat w q) as Hst.
  { intros q. case_decide as E; [subst q; by apply stat_insert_eq|].
    by apply stat_insert_ne. }
  split.
  - intros q. rewrite Hst. case_decide as E; [subst q|done]. split.
    + intros Hd. by rewrite Hd in Hnd.
    + intros Hf. destruct n; [done|]. rewrite Hn in Hf; done.
  - intros Hwf q c x. rewrite !Hst. case_decide as E.
    + intros _. subst p. unfold os_path_dirname in Hpar.
      rewrite removelast_last in Hpar. case_decide as E'; [|done].
      by apply snoc_ne_self in E'.
    + intros Hq. pose proof (Hwf q c x Hq) as Hd.
      case_decide as E'; [|done]. subst q. by rewrite Hd in Hnd.
Qed.

Lemma careful_os_mkdir p : careful (os_mkdir p).
Proof.
  intros w. rewrite os_mkdir_run.
  destruct (stat w (os_path_dirname p)) as [[?|]|] eqn:Hpar;
    try (split; [apply kept_refl|apply well_formed_log]).
  destruct (stat w p) eqn:Hp;
    try (split; [apply kept_refl|apply well_formed_log]).
  apply put_node_careful; [done|by rewrite Hp|done].
Qed.

Lemma careful_write_bytes p data : careful (write_bytes p data).
Proof.
  intros w. rewrite write_bytes_run.
  destruct (stat w (os_path_dirname p)) as [[?|]|] eqn:Hpar;
    try (split; [apply kept_refl|apply well_formed_log]).
  destruct (is_dir (stat w p)) eqn:Hp;
    try (split; [apply kept_refl|apply well_formed_log]).
  by apply put_node_careful.
Qed.

Lemma careful_read_bytes p : careful (read_bytes p).
Proof.
  intros w. rewrite read_bytes_run.
  destruct (stat w p) as [[?|]|]; (split; [apply kept_refl|apply well_formed_log]).
Qed.

Lemma careful_makedirs_rev rname : careful (makedirs_rev rname).
Proof.
  induction rname as [|t rhead IH]; [apply careful_os_mkdir|].
  cbn [makedirs_rev]. apply careful_bind.
  { unfold os_path_exists. apply careful_bind; [apply careful_emit|].
    intros _. apply careful_bind; [apply careful_get_stat|].
    intros o. apply careful_ret. }
  intros b. apply careful_bind; [|intros _; apply careful_os_mkdir].
  destruct b; simpl; [apply careful_ret|by apply careful_except].
Qed.

Lemma careful_shutil_copy s d : careful (shutil_copy s d).
Proof.
  unfold shutil_copy. apply careful_bind.
  { unfold os_path_isdir. apply careful_bind; [apply careful_emit|].
    intros _. apply careful_bind; [apply careful_get_stat|].
    intros o. apply careful_ret. }
  intros b. apply careful_bind.
  { unfold shutil_copyfile. apply careful_bind.
    - unfold shutil_samefile. apply careful_bind; [apply careful_emit|].
      intros _. apply careful_bind; [apply careful_get_stat|]. intros o.
      apply careful_bind; [apply careful_get_stat|]. intros o'.
      destruct o, o'; apply careful_ret.
    - intros [|]; [apply careful_raise|].
      apply careful_bind; [apply careful_read_bytes|].
      intros data. apply careful_write_bytes. }
  intros _. apply careful_bind; [|intros _; apply careful_ret].
  unfold shutil_copymode. apply careful_bind; [apply careful_get_stat|].
  intros o. apply careful_bind; [apply careful_get_stat|]. intros o'.
  destruct o, o'; first [apply careful_emit|apply careful_raise].
Qed.

Lemma careful_build_extension_on script_dir get_ext_fullpath names ext :
  careful (build_extension_on script_dir get_ext_fullpath names ext).
Proof.
  unfold build_extension_on. apply careful_bind.
  { unfold os_path_exists. apply careful_bind; [apply careful_emit|].
    intros _. apply careful_bind; [apply careful_get_stat|].
    intros o. apply careful_ret. }
  intros b. apply careful_bind.
  { destruct b; simpl; [apply careful_ret|apply careful_makedirs_rev]. }
  intros _. apply careful_for_in. intros binary.
  apply careful_bind.
  { unfold os_path_isfile. apply careful_bind; [apply careful_emit|].
    intros _. apply careful_bind; [apply careful_get_stat|].
    intros o. apply careful_ret. }
  intros ok. apply careful_bind.
  { destruct ok; [apply careful_ret|apply careful_raise]. }
  intros _. apply careful_bind; [apply careful_shutil_copy|].
  intros _. apply careful_ret.
Qed.

(** X1. Whatever the world and whatever the outcome, a run of
    [build_extension] removes no entry, turns no directory into a file and
    no file into a directory. *)
Theorem build_extension_keeps_entries script_dir get_ext_fullpath ext w p :
  (stat w p = Some Dir →
   stat (build_extension script_dir get_ext_fullpath ext w).2 p = Some Dir)
  ∧ (is_file (stat w p) = true →
     is_file (stat (build_extension script_dir get_ext_fullpath ext w).2 p)
     = true).
Proof.
  apply (careful_build_extension_on script_dir get_ext_fullpath
           binary_names ext w).
Qed.

(** ** When the run completes, and on what it depends *)

Section Completion.

Variable script_dir : path.
Variable get_ext_fullpath : string → path.
Variable ext : CMakeExtension.

Local Abbreviation extdir := (extdir get_ext_fullpath ext).
Local Abbreviation bin_dir := (bin_dir script_dir).
Local Abbreviation src := (src script_dir).
Local Abbreviation dst := (dst get_ext_fullpath ext).
Local Abbreviation create_extdir := (create_extdir get_ext_fullpath ext).
Local Abbreviation stage_binary := (stage_binary get_ext_fullpath ext).
Local Abbreviation stage := (stage script_dir get_ext_fullpath ext).
Local Abbreviation run names :=
  (build_extension_on script_dir get_ext_fullpath names ext).


Ltac loop_step n w Hd :=
  rewrite ?stage_cons;
  let O := fresh "O" in
  pose proof (stage_binary_outcome script_dir get_ext_fullpath ext n w Hd) as O;
  destruct (stage_binary (src n) w) as [? ?];
  inversion O; subst; clear O.




(** Why the loop fails, when it does. *)
Lemma stage_error_cause names w e :
  stat w extdir = Some Dir →
  (stage names w).1 = inl e →
  (e = AssertionError
   ∧ ∃ n, n ∈ names ∧ is_file (stat w (src n)) = false)
  ∨ (e = SameFileError ∧ bin_dir = extdir)
  ∨ (e = IsADirectoryError ∧ ∃ n, n ∈ names ∧ stat w (dst n) = Some Dir).
Proof.
  revert w. induction names as [|n names IH]; intros w Hd; [done|].
  loop_step n w Hd; cbn [fst snd]; intros He.
  - injection He as <-. left. split; [done|]. exists n. split; [by left|done].
  - injection He as <-. right. left. split; [done|].
    match goal with H : src n = dst n |- _ => by apply src_eq_dst in H as [_ ?] end.
  - injection He as <-. right. right. split; [done|].
    exists n. split; [by left|done].
  - match type of He with context [stage names ?x] => set (w' := x) in * end.
    assert (∀ q, stat w' q = if decide (dst n = q) then Some (File data)
                             else stat w q) as Hw'
      by (intros; apply stat_copied).
    destruct (IH w') as [(-> & m & Hm & Hf)|[?|(-> & m & Hm & Hdm)]];
      [|done| | |].
    + rewrite Hw'. case_decide as E; [by apply dst_ne_extdir in E|done].
    + left. split; [done|]. exists m. split; [by right|].
      rewrite Hw' in Hf. by destruct (decide (dst n = src m)).
    + by right; left.
    + right. right. split; [done|]. exists m. split; [by right|].
      rewrite Hw' in Hdm. by destruct (decide (dst n = dst m)).
Qed.

(** X5. Each failure of the copying has its cause in the world the run
    started from. For plain file names and with no regular file on the path
    to the output directory: an [AssertionError] means that some
    [build/bin/<name>] was not a regular file, a [SameFileError] that the
    output directory is [build/bin], an [IsADirectoryError] that a
    directory sat at some [<output>/<name>]; and the run does not raise
    [FileNotFoundError], since the [assert] guards the copy. *)
Theorem build_extension_on_error_cause names w :
  Forall proper names →
  (∀ q, q `prefix_of` extdir → is_file (stat w q) = false) →
  ((run names w).1 = inl AssertionError →
   ∃ n, n ∈ names ∧ is_file (stat w (src n)) = false)
  ∧ ((run names w).1 = inl SameFileError → bin_dir = extdir)
  ∧ ((run names w).1 = inl IsADirectoryError →
     ∃ n, n ∈ names ∧ stat w (dst n) = Some Dir)
  ∧ (run names w).1 ≠ inl FileNotFoundError.
Proof.
  intros _ Hpre. destruct (create_extdir_ok _ _ w Hpre) as [Hok Hd].
  destruct (create_extdir_frame get_ext_fullpath ext w) as (_ & Hf & _).
  destruct (run_cases script_dir get_ext_fullpath ext names w)
    as [(e' & He' & _)|(_ & _ & ->)]; [by apply Hpre|congruence|].
  assert (∀ e, (stage names (create_extdir w).2).1 = inl e →
            (e = AssertionError
             ∧ ∃ n, n ∈ names ∧ is_file (stat w (src n)) = false)
            ∨ (e = SameFileError ∧ bin_dir = extdir)
            ∨ (e = IsADirectoryError
               ∧ ∃ n, n ∈ names ∧ stat w (dst n) = Some Dir)) as Hcause.
  { intros e He.
    destruct (stage_error_cause _ _ _ Hd He)
      as [(-> & n & Hn & Hm)|[?|(-> & n & Hn & Hdn)]].
    - left. split; [done|]. exists n. split; [done|].
      by rewrite <- (only_dirs_added_is_file _ _ _ _ Hf).
    - by right; left.
    - right. right. split; [done|]. exists n. split; [done|].
      by rewrite <- (only_dirs_added_below _ _ _ _ Hf
                       (extdir_prefix_dst _ _ n) (dst_ne_extdir _ _ n)). }
  split; [|split; [|split]]; intros He;
    destruct (Hcause _ He) as [(? & ?)|[(? & ?)|(? & ?)]]; done.
Qed.

(** X6. When the output directory is [build/bin] itself, the run stops
    at the first binary with [SameFileError], before any file is opened,
    and changes no file. *)
Theorem build_extension_on_output_is_bin_dir n names w :
  stat w extdir = Some Dir →
  bin_dir = extdir →
  is_file (stat w (src n)) = true →
  run (n :: names) w
  = (inl SameFileError,
     add_log w [Exists extdir; IsFile (src n); IsDir extdir;
                SameFile (src n) (dst n)]).
Proof.
  intros Hd Hb Hs.
  rewrite build_extension_on_eq, bind_run.
  rewrite create_extdir_present by (rewrite Hd; eauto).
  rewrite stage_cons, stage_binary_eq by (by rewrite stat_add_log).
  unfold stage_binary_spec. rewrite !stat_add_log.
  destruct (stat w (src n)) as [[data|]|] eqn:Hsn; try done.
  assert (src n = dst n) as E by (rewrite src_snoc, Hb; done).
  rewrite bool_decide_true by done.
  rewrite bool_decide_true by (rewrite <- E, Hsn; eauto).
  simpl. by rewrite add_log_add_log.
Qed.

End Completion.

(** ** Output directories that are not directories *)



Lemma well_formed_above w p k x :
  well_formed w → stat w (p ++ k) = Some x → k ≠ [] → stat w p = Some Dir.
Proof.
  intros Hwf. revert x. induction k as [|c k IH] using rev_ind; [done|].
  intros x Hx _. rewrite app_assoc in Hx. apply Hwf in Hx.
  destruct k as [|c' k']; [by rewrite app_nil_r in Hx|]. by eapply IH.
Qed.

(** [os.makedirs] below a regular file. *)
Lemma makedirs_rev_below_file q c d rr w :
  stat w q = Some (File d) →
  (∀ r, r `prefix_of` rev rr → stat w (q ++ c :: r) = None) →
  ∃ w', makedirs_rev (rr ++ c :: rev q) w = (inl NotADirectoryError, w')
        ∧ files w' = files w
        ∧ ∃ l, log w' = log w ++ l ∧ Forall is_mk_event l.
Proof.
  revert w. induction rr as [|t rr IH]; intros w Hq Habs.
  - simpl app. cbn [makedirs_rev]. rewrite bind_run, os_path_exists_run.
    rewrite rev_involutive, Hq. rewrite bool_decide_true by eauto. simpl.
    rewrite ret_bind_run, os_mkdir_run. simpl rev. rewrite rev_involutive.
    rewrite dirname_snoc, stat_add_log, Hq.
    eexists. split; [done|]. split; [done|].
    exists [Exists q; Mkdir (q ++ [c])]. simpl. rewrite <- app_assoc.
    split; [done|]. by repeat constructor.
  - simpl app. cbn [makedirs_rev]. rewrite bind_run, os_path_exists_run.
    assert (rev (rr ++ c :: rev q) = q ++ c :: rev rr) as Hrev.
    { rewrite rev_app_distr. simpl. rewrite rev_involutive.
      by rewrite <- app_assoc. }
    rewrite Hrev, Habs by (simpl; by apply prefix_app_r).
    rewrite bool_decide_false by (by intros [? ?]). simpl.
    destruct (IH (add_log w [Exists (q ++ c :: rev rr)]))
      as (w' & Hrun & Hfiles & l & Hl & Hmk).
    { by rewrite stat_add_log. }
    { intros r Hr. rewrite stat_add_log. apply Habs. simpl.
      by apply prefix_app_r. }
    rewrite bind_run. unfold except_FileExistsError_pass. rewrite Hrun.
    exists w'. split; [done|]. split; [done|].
    exists (Exists (q ++ c :: rev rr) :: l). rewrite Hl. simpl.
    rewrite <- app_assoc. split; [done|]. by constructor.
Qed.

Section OddOutput.

Variable script_dir : path.
Variable get_ext_fullpath : string → path.
Variable ext : CMakeExtension.

Local Abbreviation extdir := (extdir get_ext_fullpath ext).
Local Abbreviation src := (src script_dir).
Local Abbreviation create_extdir := (create_extdir get_ext_fullpath ext).
Local Abbreviation stage_binary := (stage_binary get_ext_fullpath ext).
Local Abbreviation stage := (stage script_dir get_ext_fullpath ext).
Local Abbreviation run names :=
  (build_extension_on script_dir get_ext_fullpath names ext).



(** X8. In a well-formed file system, when a regular file lies on the
    path to the output directory, the run fails in [os.makedirs] with
    [NotADirectoryError]: no directory is created, no file is changed, and
    no binary is tested or copied. *)
Theorem build_extension_on_blocked_path names q c rest d w :
  well_formed w →
  extdir = q ++ c :: rest →
  stat w q = Some (File d) →
  (run names w).1 = inl NotADirectoryError
  ∧ files (run names w).2 = files w
  ∧ ∃ l, log (run names w).2 = log w ++ l ∧ Forall is_mk_event l.
Proof.
  intros Hwf Hext Hq.
  assert (∀ r, stat w (q ++ c :: r) = None) as Habs.
  { intros r. destruct (stat w (q ++ c :: r)) as [x|] eqn:Hx; [|done].
    apply (well_formed_above w q (c :: r) x) in Hx; [congruence|done..]. }
  rewrite build_extension_on_eq, bind_run. unfold create_extdir.
  rewrite bind_run, os_path_exists_run, Hext, Habs.
  rewrite bool_decide_false by (by intros [? ?]). simpl.
  unfold os_makedirs.
  assert (rev (q ++ c :: rest) = rev rest ++ c :: rev q) as ->.
  { rewrite rev_app_distr. simpl. by rewrite <- app_assoc. }
  destruct (makedirs_rev_below_file q c d (rev rest)
              (add_log w [Exists (q ++ c :: rest)]))
    as (w' & -> & Hfiles & l & Hl & Hmk).
  { by rewrite stat_add_log. }
  { intros r _. by rewrite stat_add_log. }
  cbn [fst snd]. split; [done|]. split; [done|].
  exists (Exists (q ++ c :: rest) :: l). rewrite Hl. simpl.
  rewrite <- app_assoc. split; [done|]. by constructor.
Qed.

End OddOutput.

(** ** More on the long description *)

Lemma universal_newlines_no_cr_aux (k : nat) :
  ∀ s : str, (List.length s ≤ k)%nat → 13%N ∉ universal_newlines s.
Proof.
  induction k as [|k IH]; intros s Hlen.
  { destruct s; [apply not_elem_of_nil|simpl in Hlen; lia]. }
  destruct s as [|c s']; [apply not_elem_of_nil|]. simpl in Hlen.
  cbn [universal_newlines]. destruct (N.eqb_spec c 13) as [_|Hc].
  - apply not_elem_of_cons. split; [done|].
    destruct s' as [|c' s'']; [apply not_elem_of_nil|]. simpl in Hlen.
    destruct (c' =? 10)%N; apply IH; simpl; lia.
  - apply not_elem_of_cons. split; [done|]. apply IH. lia.
Qed.

Lemma universal_newlines_no_cr (s : str) : 13%N ∉ universal_newlines s.
Proof. by apply (universal_newlines_no_cr_aux (List.length s)). Qed.

Lemma decode_ascii_bytes enc (data : list byte) :
  Forall (λ b, (Byte.to_N b < 128)%N) data →
  decode enc data = Some (map Byte.to_N data).
Proof.
  intros H. destruct enc; simpl; [| |done].
  - induction H as [|b bs Hb _ IH]; [done|]. cbn [utf_8_decode].
    apply N.ltb_lt in Hb. rewrite Hb, IH. done.
  - unfold ascii_decode. induction H as [|b bs Hb _ IH]; [done|].
    cbn [mapM]. apply N.ltb_lt in Hb. rewrite Hb. simpl. by rewrite IH.
Qed.

Section ReadmeMore.

Variable script_dir : path.

Local Abbreviation readme := (readme script_dir).

Lemma long_description_run enc w :
  long_description script_dir enc w =
  match stat w readme with
  | None => (inl FileNotFoundError, add_log w [OpenRead readme])
  | Some Dir => (inl IsADirectoryError, add_log w [OpenRead readme])
  | Some (File data) =>
      match decode enc data with
      | None => (inl UnicodeDecodeError, add_log w [OpenRead readme])
      | Some s => (inr (universal_newlines s), add_log w [OpenRead readme])
      end
  end.
Proof.
  unfold long_description, open_read_text, os_path_join. fold readme.
  rewrite bind_run, read_bytes_run.
  destruct (stat w readme) as [[data|]|]; try done.
  by destruct (decode enc data).
Qed.

(** X9. Whatever the file and the encoding, the long description holds
    no carriage return. *)
Theorem long_description_no_carriage_return enc w s :
  (long_description script_dir enc w).1 = inr s → 13%N ∉ s.
Proof.
  rewrite long_description_run.
  destruct (stat w readme) as [[data|]|]; try done.
  destruct (decode enc data); [|done]. intros [= <-].
  apply universal_newlines_no_cr.
Qed.

(** X10. For a [README.md] of ASCII bytes the long description does not
    depend on the encoding the platform prefers: it is the bytes as code
    points, with the newlines translated. *)
Theorem long_description_ascii enc w data :
  stat w readme = Some (File data) →
  Forall (λ b, (Byte.to_N b < 128)%N) data →
  long_description script_dir enc w
  = (inr (universal_newlines (map Byte.to_N data)),
     add_log w [OpenRead readme]).
Proof.
  intros Hs Ha. rewrite long_description_run, Hs.
  by rewrite decode_ascii_bytes.
Qed.

End ReadmeMore.

(** ** Staging in several runs *)

Lemma stat_files w w' p : files w = files w' → stat w p = stat w' p.
Proof. intros H. destruct p; [done|]. simpl. by rewrite H. Qed.

Section Runs.

Variable script_dir : path.
Variable get_ext_fullpath : string → path.
Variable ext : CMakeExtension.

Local Abbreviation extdir := (extdir get_ext_fullpath ext).
Local Abbreviation src := (src script_dir).
Local Abbreviation dst := (dst get_ext_fullpath ext).
Local Abbreviation create_extdir := (create_extdir get_ext_fullpath ext).
Local Abbreviation stage_binary := (stage_binary get_ext_fullpath ext).
Local Abbreviation stage := (stage script_dir get_ext_fullpath ext).
Local Abbreviation run names :=
  (build_extension_on script_dir get_ext_fullpath names ext).

(** The loop looks at the files, never at the log. *)
Lemma stage_files_only names : ∀ w w',
  files w = files w' →
  stat w extdir = Some Dir →
  (stage names w).1 = (stage names w').1
  ∧ files (stage names w).2 = files (stage names w').2.
Proof.
  induction names as [|n names IH]; intros w w' Hf Hd; [done|].
  assert (∀ q, stat w q = stat w' q) as Hst by (intros; by apply stat_files).
  rewrite !stage_cons, !stage_binary_eq by (by rewrite <- ?Hst).
  unfold stage_binary_spec. rewrite <- !Hst.
  destruct (stat w (src n)) as [[data|]|]; try done.
  destruct (_ && _); [done|]. destruct (is_dir _); [done|].
  apply IH; [simpl; by rewrite Hf|].
  rewrite stat_copied. case_decide as E; [|done]. by apply dst_ne_extdir in E.
Qed.

(** X15. Staging composes: after a run over [names] that completed, a
    run over [names'] ends as the single run over [names ++ names'] does,
    with the same result and the same files. *)
Theorem build_extension_on_app names names' w :
  is_file (stat w extdir) = false →
  (run names w).1 = inr () →
  (run names' (run names w).2).1 = (run (names ++ names') w).1
  ∧ files (run names' (run names w).2).2 = files (run (names ++ names') w).2.
Proof.
  intros Hnf Hok.
  destruct (run_ok script_dir get_ext_fullpath ext names w Hnf Hok) as [Hd _].
  destruct (run_cases script_dir get_ext_fullpath ext names w Hnf)
    as [(e & He & Hr)|(Hc & Hd1 & Hr)]; rewrite Hr in *; [congruence|].
  destruct (run_cases script_dir get_ext_fullpath ext (names ++ names') w Hnf)
    as [(e & He & _)|(_ & _ & ->)]; [congruence|].
  rewrite stage_app.
  destruct (stage names (create_extdir w).2) as [[e|[]] w2]; simpl in *; [done|].
  rewrite build_extension_on_eq, bind_run.
  rewrite create_extdir_present by (rewrite Hd; eauto).
  apply stage_files_only; [done|by rewrite stat_add_log].
Qed.

End Runs.

(** ** Concrete runs for the further properties *)

Lemma well_formed_check_spec w : well_formed_check w = true → well_formed w.
Proof.
  unfold well_formed_check. rewrite forallb_forall. intros H p c x Hx.
  assert (files w !! (p ++ [c]) = Some x) as Hl by (by destruct p).
  apply elem_of_map_to_list, list_elem_of_In, H in Hl. simpl in Hl.
  destruct (p ++ [c]) as [|a k] eqn:E; [by destruct p|].
  rewrite <- E, removelast_last in Hl. by apply bool_decide_eq_true in Hl.
Qed.

Lemma build_extension_keeps_entries_witness :
  is_file (stat stale_tree (example_dst "circt-opt")) = true
  ∧ is_file (stat (example_build stale_tree).2 (example_dst "circt-opt")) = true.
Proof.
  assert (is_file (stat stale_tree (example_dst "circt-opt")) = true) as H1
    by (vm_compute; reflexivity).
  split; [exact H1|].
  exact (proj2 (build_extension_keeps_entries ["repo"] example_fullpath
                  example_ext stale_tree (example_dst "circt-opt")) H1).
Defined.



Lemma build_extension_on_error_cause_witness :
  Forall proper binary_names
  ∧ (∀ q, q `prefix_of` example_extdir →
       is_file (stat tree_without_firtool q) = false)
  ∧ (build_extension_on ["repo"] example_fullpath binary_names example_ext
       tree_without_firtool).1 = inl AssertionError
  ∧ ∃ n, n ∈ binary_names
         ∧ is_file (stat tree_without_firtool (example_src n)) = false.
Proof.
  assert (∀ q, q `prefix_of` example_extdir →
            is_file (stat tree_without_firtool q) = false) as H1
    by (apply example_no_file_on_path; vm_compute; reflexivity).
  assert ((build_extension_on ["repo"] example_fullpath binary_names example_ext
             tree_without_firtool).1 = inl AssertionError) as H2
    by (vm_compute; reflexivity).
  split; [exact binary_names_proper|]. split; [exact H1|]. split; [exact H2|].
  exact (proj1 (build_extension_on_error_cause ["repo"] example_fullpath
                  example_ext binary_names tree_without_firtool
                  binary_names_proper H1) H2).
Defined.

Lemma build_extension_on_output_is_bin_dir_witness :
  stat fresh_tree (extdir fullpath_in_bin example_ext) = Some Dir
  ∧ bin_dir ["repo"] = extdir fullpath_in_bin example_ext
  ∧ is_file (stat fresh_tree (example_src "circt-opt")) = true
  ∧ build_extension_on ["repo"] fullpath_in_bin ["circt-opt"; "firtool"]
      example_ext fresh_tree
    = (inl SameFileError,
       add_log fresh_tree
         [Exists (extdir fullpath_in_bin example_ext);
          IsFile (example_src "circt-opt");
          IsDir (extdir fullpath_in_bin example_ext);
          SameFile (example_src "circt-opt")
            (dst fullpath_in_bin example_ext "circt-opt")]).
Proof.
  assert (stat fresh_tree (extdir fullpath_in_bin example_ext) = Some Dir) as H1
    by (vm_compute; reflexivity).
  assert (bin_dir ["repo"] = extdir fullpath_in_bin example_ext) as H2
    by (vm_compute; reflexivity).
  assert (is_file (stat fresh_tree (example_src "circt-opt")) = true) as H3
    by (vm_compute; reflexivity).
  split; [exact H1|]. split; [exact H2|]. split; [exact H3|].
  exact (build_extension_on_output_is_bin_dir ["repo"] fullpath_in_bin
           example_ext "circt-opt" ["firtool"] fresh_tree H1 H2 H3).
Defined.


Lemma build_extension_on_blocked_path_witness :
  well_formed tree_with_file_build
  ∧ example_extdir = ["repo"; "build"] ++ "lib" :: []
  ∧ stat tree_with_file_build ["repo"; "build"]
    = Some (File (bytes_of "not a directory"))
  ∧ (build_extension_on ["repo"] example_fullpath binary_names example_ext
       tree_with_file_build).1 = inl NotADirectoryError
  ∧ files (build_extension_on ["repo"] example_fullpath binary_names
             example_ext tree_with_file_build).2
    = files tree_with_file_build
  ∧ ∃ l, log (build_extension_on ["repo"] example_fullpath binary_names
                example_ext tree_with_file_build).2
         = log tree_with_file_build ++ l
         ∧ Forall is_mk_event l.
Proof.
  assert (well_formed tree_with_file_build) as H1
    by (apply well_formed_check_spec; vm_compute; reflexivity).
  assert (example_extdir = ["repo"; "build"] ++ "lib" :: []) as H2
    by (vm_compute; reflexivity).
  assert (stat tree_with_file_build ["repo"; "build"]
          = Some (File (bytes_of "not a directory"))) as H3
    by (vm_compute; reflexivity).
  split; [exact H1|]. split; [exact H2|]. split; [exact H3|].
  exact (build_extension_on_blocked_path ["repo"] example_fullpath example_ext
           binary_names ["repo"; "build"] "lib" []
           (bytes_of "not a directory") tree_with_file_build H1 H2 H3).
Defined.

Lemma long_description_no_carriage_return_witness :
  (long_description ["repo"] UTF_8 readme_tree).1 = inr [97; 10; 98]%N
  ∧ (13%N ∉ [97; 10; 98]%N).
Proof.
  assert ((long_description ["repo"] UTF_8 readme_tree).1
          = inr [97; 10; 98]%N) as H1 by (vm_compute; reflexivity).
  split; [exact H1|].
  exact (long_description_no_carriage_return ["repo"] UTF_8 readme_tree
           [97; 10; 98]%N H1).
Defined.

Lemma long_description_ascii_witness :
  stat readme_ascii_tree (readme ["repo"]) = Some (File (bytes_of "hgdb"))
  ∧ Forall (λ b, (Byte.to_N b < 128)%N) (bytes_of "hgdb")
  ∧ long_description ["repo"] Latin_1 readme_ascii_tree
    = (inr (universal_newlines (map Byte.to_N (bytes_of "hgdb"))),
       add_log readme_ascii_tree [OpenRead (readme ["repo"])]).
Proof.
  assert (stat readme_ascii_tree (readme ["repo"])
          = Some (File (bytes_of "hgdb"))) as H1 by (vm_compute; reflexivity).
  assert (Forall (λ b, (Byte.to_N b < 128)%N) (bytes_of "hgdb")) as H2
    by (repeat (constructor; [vm_compute; reflexivity|]); constructor).
  split; [exact H1|]. split; [exact H2|].
  exact (long_description_ascii ["repo"] Latin_1 readme_ascii_tree
           (bytes_of "hgdb") H1 H2).
Defined.

Lemma build_extension_on_app_witness :
  is_file (stat fresh_tree example_extdir) = false
  ∧ (build_extension_on ["repo"] example_fullpath ["circt-opt"] example_ext
       fresh_tree).1 = inr ()
  ∧ (build_extension_on ["repo"] example_fullpath ["firtool"] example_ext
       (build_extension_on ["repo"] example_fullpath ["circt-opt"] example_ext
          fresh_tree).2).1
    = (build_extension_on ["repo"] example_fullpath
         (["circt-opt"] ++ ["firtool"]) example_ext fresh_tree).1
  ∧ files (build_extension_on ["repo"] example_fullpath ["firtool"] example_ext
             (build_extension_on ["repo"] example_fullpath ["circt-opt"]
                example_ext fresh_tree).2).2
    = files (build_extension_on ["repo"] example_fullpath
               (["circt-opt"] ++ ["firtool"]) example_ext fresh_tree).2.
Proof.
  assert (is_file (stat fresh_tree example_extdir) = false) as H1
    by (vm_compute; reflexivity).
  assert ((build_extension_on ["repo"] example_fullpath ["circt-opt"]
             example_ext fresh_tree).1 = inr ()) as H2
    by (vm_compute; reflexivity).
  split; [exact H1|]. split; [exact H2|].
  exact (build_extension_on_app ["repo"] example_fullpath example_ext
           ["circt-opt"] ["firtool"] fresh_tree H1 H2).
Defined.
